(** * Polly-API client (client.py): a shallow embedding and its properties

    The client wraps six HTTP endpoints of a polling service.  Every
    function builds one request, hands it to [requests], raises on an error
    status and returns the decoded JSON body.  A small driver under
    [if __name__ == "__main__"] chains five of the calls.

    Conventions of the embedding:
    - a Python [str] is a [string] holding its UTF-8 encoding;
    - a value decoded from JSON is a [JSON] term; a Python dict is an
      association list in insertion order;
    - [print] appends one entry to [stdout]; a call of [requests.get] or
      [requests.post] appends the call to [sent] and asks the [server]
      oracle of the [World] for its outcome;
    - exceptions are values of [Exc] with a class from the hierarchy of
      [requests.exceptions] and the few builtin classes the driver can hit. *)

From Stdlib Require Import ZArith List String Ascii Bool Lia.
Import ListNotations.

Local Open Scope string_scope.
Local Open Scope list_scope.
Local Open Scope Z_scope.

(** ** Strings *)

Module Str.

(** [sep.join(parts)]. *)
Fixpoint join (sep : string) (parts : list string) : string :=
  match parts with
  | [] => ""
  | [p] => p
  | p :: rest => (p ++ sep ++ join sep rest)%string
  end.

Definition digit (d : Z) : ascii := ascii_of_N (Z.to_N (48 + d)).

(** Decimal digits of a non-negative number, most significant first;
    [fuel] bounds the number of digits. *)
Fixpoint digits (fuel : nat) (n : Z) (acc : string) : string :=
  match fuel with
  | O => acc
  | S fuel' =>
      let acc' := String (digit (n mod 10)) acc in
      if n / 10 =? 0 then acc' else digits fuel' (n / 10) acc'
  end.

(** [str(n)] for a Python int. *)
Definition of_Z (n : Z) : string :=
  if n <? 0
  then String "-" (digits (S (Z.to_nat (Z.log2 (- n)))) (- n) "")
  else digits (S (Z.to_nat (Z.log2 n))) n "".

Definition hex_digit (lower : bool) (d : Z) : ascii :=
  if d <? 10 then digit d
  else ascii_of_N (Z.to_N ((if lower then 97 else 65) + (d - 10))).

(** [width] hexadecimal digits of [n], most significant first. *)
Fixpoint hex (lower : bool) (width : nat) (n : Z) : string :=
  match width with
  | O => ""
  | S w => String (hex_digit lower ((n / 16 ^ Z.of_nat w) mod 16)) (hex lower w n)
  end.

Definition code (c : ascii) : Z := Z.of_N (N_of_ascii c).

Definition newline : string := String (ascii_of_N 10) "".

Fixpoint replicate (n : nat) (s : string) : string :=
  match n with
  | O => ""
  | S n' => (s ++ replicate n' s)%string
  end.

(** Number of bytes of the UTF-8 sequence that starts with byte [b]. *)
Definition utf8_len (b : Z) : nat :=
  if b <? 192 then 1%nat
  else if b <? 224 then 2%nat
  else if b <? 240 then 3%nat
  else 4%nat.

(** Payload bits of a lead byte. *)
Definition utf8_lead (b : Z) : Z :=
  if b <? 128 then b
  else if b <? 224 then b mod 32
  else if b <? 240 then b mod 16
  else b mod 8.

(** Reads [n] continuation bytes after a lead byte: the code point and
    the rest of the string. *)
Fixpoint utf8_cont (n : nat) (acc : Z) (s : string) : Z * string :=
  match n, s with
  | S n', String c rest => utf8_cont n' (acc * 64 + code c mod 64) rest
  | _, _ => (acc, s)
  end.

(** The code points of a [str]. *)
Fixpoint code_points (fuel : nat) (s : string) : list Z :=
  match fuel, s with
  | S fuel', String c rest =>
      let b := code c in
      let '(cp, rest') := utf8_cont (pred (utf8_len b)) (utf8_lead b) rest in
      cp :: code_points fuel' rest'
  | _, _ => []
  end.

Definition ord (s : string) : list Z := code_points (String.length s) s.

(** [s[0]] as a string: the bytes of the first code point. *)
Definition first_char (s : string) : string :=
  match s with
  | "" => ""
  | String c _ => substring 0 (utf8_len (code c)) s
  end.

End Str.

(** ** Values decoded from JSON *)

(** A Python float, as far as the client observes it: its [repr] when it
    is finite. *)
Inductive pyfloat : Type :=
| FFinite (repr : string)
| FNaN
| FInf
| FNegInf.

#[warnings="-register-all"]
Inductive JSON : Type :=
| JNull
| JBool (b : bool)
| JInt (n : Z)
| JFloat (f : pyfloat)
| JStr (s : string)
| JList (items : list JSON)
| JDict (entries : list (string * JSON)).

Module Py.

Definition dquote : string := String (ascii_of_N 34) "".

(** Writes a literal that holds double quotes: every apostrophe of [s]
    stands for one. *)
Fixpoint dq (s : string) : string :=
  match s with
  | "" => ""
  | String c rest => String (if Ascii.eqb c "'" then ascii_of_N 34 else c) (dq rest)
  end.

(** [bool(v)]. *)
Definition truthy (v : JSON) : bool :=
  match v with
  | JNull => false
  | JBool b => b
  | JInt n => negb (n =? 0)
  | JFloat (FFinite r) => negb (String.eqb r "0.0" || String.eqb r "-0.0")
  | JFloat _ => true
  | JStr s => negb (String.eqb s "")
  | JList items => match items with [] => false | _ => true end
  | JDict entries => match entries with [] => false | _ => true end
  end.

(** [type(v).__name__]. *)
Definition type_name (v : JSON) : string :=
  match v with
  | JNull => "NoneType"
  | JBool _ => "bool"
  | JInt _ => "int"
  | JFloat _ => "float"
  | JStr _ => "str"
  | JList _ => "list"
  | JDict _ => "dict"
  end.

Definition float_str (f : pyfloat) : string :=
  match f with
  | FFinite r => r
  | FNaN => "nan"
  | FInf => "inf"
  | FNegInf => "-inf"
  end.

Section Repr.
(** [repr] of a [str] depends on the Unicode tables of the interpreter;
    it is taken from the world. *)
Variable repr_str : string -> string.

Fixpoint repr (v : JSON) : string :=
  match v with
  | JNull => "None"
  | JBool true => "True"
  | JBool false => "False"
  | JInt n => Str.of_Z n
  | JFloat f => float_str f
  | JStr s => repr_str s
  | JList items => "[" ++ Str.join ", " (map repr items) ++ "]"
  | JDict entries =>
      "{" ++ Str.join ", "
               (map (fun kv => repr_str (fst kv) ++ ": " ++ repr (snd kv)) entries)
          ++ "}"
  end%string.

(** [str(v)], which is what an f-string and [print] apply. *)
Definition str (v : JSON) : string :=
  match v with
  | JStr s => s
  | _ => repr v
  end.
End Repr.

(** The first entry of a dict for a key. *)
Fixpoint lookup (key : string) (entries : list (string * JSON)) : option JSON :=
  match entries with
  | [] => None
  | (k, v) :: rest => if String.eqb k key then Some v else lookup key rest
  end.

End Py.

(** ** The [json] module *)

Module Json.

(** One code point under [ensure_ascii=True]. *)
Definition escape (cp : Z) : string :=
  if cp =? 34 then "\" ++ Py.dquote
  else if cp =? 92 then "\\"
  else if cp =? 10 then "\n"
  else if cp =? 13 then "\r"
  else if cp =? 9 then "\t"
  else if cp =? 12 then "\f"
  else if cp =? 8 then "\b"
  else if (32 <=? cp) && (cp <=? 126) then String (ascii_of_N (Z.to_N cp)) ""
  else if cp <? 65536 then "\u" ++ Str.hex true 4 cp
  else
    let n := cp - 65536 in
    let s1 := 55296 + (n / 1024) mod 1024 in
    let s2 := 56320 + n mod 1024 in
    "\u" ++ Str.hex true 4 s1 ++ "\u" ++ Str.hex true 4 s2.

(** A string literal of the encoder. *)
Definition quote (s : string) : string :=
  (Py.dquote ++ String.concat "" (map escape (Str.ord s)) ++ Py.dquote)%string.

Definition float_text (f : pyfloat) : string :=
  match f with
  | FFinite r => r
  | FNaN => "NaN"
  | FInf => "Infinity"
  | FNegInf => "-Infinity"
  end.

Definition scalar (v : JSON) : string :=
  match v with
  | JNull => "null"
  | JBool true => "true"
  | JBool false => "false"
  | JInt n => Str.of_Z n
  | JFloat f => float_text f
  | JStr s => quote s
  | _ => ""
  end.

(** [json.dumps(v)] with the default separators [", "] and [": "]. *)
Fixpoint dumps (v : JSON) : string :=
  match v with
  | JList items => "[" ++ Str.join ", " (map dumps items) ++ "]"
  | JDict entries =>
      "{" ++ Str.join ", "
               (map (fun kv => quote (fst kv) ++ ": " ++ dumps (snd kv)) entries)
          ++ "}"
  | _ => scalar v
  end%string.

Definition newline_indent (level : nat) : string :=
  (Str.newline ++ Str.replicate level "  ")%string.

(** [json.dumps(v, indent=2)] at nesting depth [level]. *)
Fixpoint dumps_indent (level : nat) (v : JSON) : string :=
  match v with
  | JList [] => "[]"
  | JList items =>
      "[" ++ newline_indent (S level)
          ++ Str.join ("," ++ newline_indent (S level)) (map (dumps_indent (S level)) items)
          ++ newline_indent level ++ "]"
  | JDict [] => "{}"
  | JDict entries =>
      "{" ++ newline_indent (S level)
          ++ Str.join ("," ++ newline_indent (S level))
               (map (fun kv => quote (fst kv) ++ ": " ++ dumps_indent (S level) (snd kv))
                  entries)
          ++ newline_indent level ++ "}"
  | _ => scalar v
  end%string.

End Json.

(** ** Form and query encoding *)

Module Url.

Definition unreserved (b : Z) : bool :=
  ((48 <=? b) && (b <=? 57)) || ((65 <=? b) && (b <=? 90))
  || ((97 <=? b) && (b <=? 122))
  || (b =? 95) || (b =? 46) || (b =? 45) || (b =? 126).

(** [urllib.parse.quote_plus] on the UTF-8 bytes of a [str]. *)
Fixpoint quote_plus (s : string) : string :=
  match s with
  | "" => ""
  | String c rest =>
      let b := Str.code c in
      if unreserved b then String c (quote_plus rest)
      else if b =? 32 then String "+" (quote_plus rest)
      else ("%" ++ Str.hex false 2 b ++ quote_plus rest)%string
  end.

(** [urlencode] of a list of pairs of [str]. *)
Definition urlencode (pairs : list (string * string)) : string :=
  Str.join "&" (map (fun kv => quote_plus (fst kv) ++ "=" ++ quote_plus (snd kv))%string pairs).

End Url.

(** ** Requests, responses and exceptions *)

Inductive Method : Type := GET | POST.

(** The [data=] argument of [requests.post]: a [str] passed as it is, or a
    dict that [requests] form-encodes. *)
Inductive Data : Type :=
| NoData
| DataStr (s : string)
| DataForm (fields : list (string * string)).

(** One call of [requests.get] or [requests.post], by its arguments. *)
Record Request : Type := mkRequest {
  method : Method;
  url : string;
  params : list (string * Z);
  data : Data;
  headers : list (string * string)
}.

(** The bytes that [requests] puts in the body for a [data=] argument. *)
Definition wire_body (d : Data) : string :=
  match d with
  | NoData => ""
  | DataStr s => s
  | DataForm fields => Url.urlencode fields
  end.

(** The URL [requests] asks for, when [url] has no query of its own. *)
Definition wire_url (r : Request) : string :=
  match params r with
  | [] => url r
  | ps => (url r ++ "?" ++ Url.urlencode (map (fun kv => (fst kv, Str.of_Z (snd kv))) ps))%string
  end.


Record Response : Type := mkResponse {
  status_code : Z;
  reason : string;
  response_url : string;
  text : string
}.

(** The exception classes the client and its driver can meet: those of
    [requests.exceptions] and the builtin ones. *)
Inductive ExcClass : Type :=
| BaseException | SystemExit | Exception
| OSError | ValueError | TypeError | AttributeError
| LookupError | IndexError | KeyError
| NameError | UnboundLocalError
| RuntimeError | RecursionError
| RequestException
| InvalidJSONError | JSONDecodeError
| HTTPError
| ConnectionError | ProxyError | SSLError
| Timeout | ConnectTimeout | ReadTimeout
| TooManyRedirects | InvalidURL | InvalidHeader
| ChunkedEncodingError | ContentDecodingError.

Definition ExcClass_eqb (a b : ExcClass) : bool :=
  match a, b with
  | BaseException, BaseException | SystemExit, SystemExit | Exception, Exception
  | OSError, OSError | ValueError, ValueError | TypeError, TypeError
  | AttributeError, AttributeError | LookupError, LookupError
  | IndexError, IndexError | KeyError, KeyError | NameError, NameError
  | UnboundLocalError, UnboundLocalError | RequestException, RequestException
  | RuntimeError, RuntimeError | RecursionError, RecursionError
  | InvalidJSONError, InvalidJSONError | JSONDecodeError, JSONDecodeError
  | HTTPError, HTTPError | ConnectionError, ConnectionError
  | ProxyError, ProxyError | SSLError, SSLError | Timeout, Timeout
  | ConnectTimeout, ConnectTimeout | ReadTimeout, ReadTimeout
  | TooManyRedirects, TooManyRedirects | InvalidURL, InvalidURL
  | InvalidHeader, InvalidHeader
  | ChunkedEncodingError, ChunkedEncodingError
  | ContentDecodingError, ContentDecodingError => true
  | _, _ => false
  end.

(** The proper ancestors of a class (its method resolution order without
    itself). *)
Definition ancestors (c : ExcClass) : list ExcClass :=
  let request := [RequestException; OSError; Exception; BaseException] in
  match c with
  | BaseException => []
  | SystemExit | Exception => [BaseException]
  | OSError | ValueError | TypeError | AttributeError | LookupError | NameError
  | RuntimeError =>
      [Exception; BaseException]
  | RecursionError => [RuntimeError; Exception; BaseException]
  | IndexError | KeyError => [LookupError; Exception; BaseException]
  | UnboundLocalError => [NameError; Exception; BaseException]
  | RequestException => [OSError; Exception; BaseException]
  | InvalidJSONError | HTTPError | ConnectionError | Timeout | TooManyRedirects
  | InvalidHeader | ChunkedEncodingError | ContentDecodingError => request
  | JSONDecodeError => InvalidJSONError :: ValueError :: request
  | ProxyError | SSLError => ConnectionError :: request
  | ConnectTimeout => ConnectionError :: Timeout :: request
  | ReadTimeout => Timeout :: request
  | InvalidURL => ValueError :: request
  end.

(** [issubclass(c, d)]. *)
Definition issubclass (c d : ExcClass) : bool :=
  ExcClass_eqb c d || existsb (ExcClass_eqb d) (ancestors c).

(** An exception object: its class, [str(e)] and, for an [HTTPError], the
    response it was raised for. *)
Record Exc : Type := mkExc {
  exc_class : ExcClass;
  exc_str : string;
  exc_response : option Response
}.

(** How [json.loads] ends on a text it returns no value for: with json's
    own [JSONDecodeError], which [response.json()] turns into the one of
    [requests], or with another exception, which [response.json()] lets
    through ([RecursionError] on deep nesting, [ValueError] on an integer
    beyond the digit limit of Python 3.11). *)
Inductive DecodeFailure : Type :=
| NotJSON (msg : string)
| DecoderRaised (e : Exc).

(** ** The world outside the client *)

Record World : Type := mkWorld {
  (** outcome of a [requests] call, given the calls made before it: an
      exception raised by the call, or the response it returns *)
  server : list Request -> Request -> Exc + Response;
  (** the JSON decoder behind [response.json()]: a value, or the way it
      failed *)
  json_loads : string -> DecodeFailure + JSON;
  (** [repr] of a [str] *)
  repr_str : string -> string;
  (** [int(time.time())] when the driver starts *)
  clock : Z
}.

(** What a run leaves behind: the calls made and the lines printed. *)
Record State : Type := mkState {
  sent : list Request;
  stdout : list string
}.

Definition initial : State := mkState [] [].

Inductive Result (A : Type) : Type :=
| Ok (a : A)
| Raise (e : Exc).

Arguments Ok {A} a.
Arguments Raise {A} e.

(** ** Computations: state, the world, and exceptions *)

Definition M (A : Type) : Type := World -> State -> State * Result A.

Definition ret {A} (a : A) : M A := fun _ st => (st, Ok a).

Definition bind {A B} (m : M A) (k : A -> M B) : M B :=
  fun w st =>
    match m w st with
    | (st', Ok a) => k a w st'
    | (st', Raise e) => (st', Raise e)
    end.

Declare Scope py_scope.
Delimit Scope py_scope with py.
Notation "x <- m ;; k" := (bind m (fun x => k))
  (at level 61, m at next level, right associativity) : py_scope.
Notation "m ;; k" := (bind m (fun _ => k))
  (at level 61, right associativity) : py_scope.
Local Open Scope py_scope.

Definition raise {A} (e : Exc) : M A := fun _ st => (st, Raise e).

Definition ask : M World := fun w st => (st, Ok w).

Definition print (line : string) : M unit :=
  fun _ st => (mkState (sent st) (stdout st ++ [line]), Ok tt).

Definition when (c : bool) (m : M unit) : M unit := if c then m else ret tt.

(** [exit()]: raises [SystemExit(None)]. *)
Definition system_exit : Exc := mkExc SystemExit "None" None.

Definition exit {A} : M A := raise system_exit.

(** The first [except] clause whose class the exception is an instance of. *)
Fixpoint select {A} (e : Exc) (clauses : list (ExcClass * (Exc -> M A))) : option (M A) :=
  match clauses with
  | [] => None
  | (c, h) :: rest => if issubclass (exc_class e) c then Some (h e) else select e rest
  end.

Definition handle {A} (clauses : list (ExcClass * (Exc -> M A))) (e : Exc) : M A :=
  match select e clauses with
  | Some h => h
  | None => raise e
  end.

(** [try: body  except C1 as e: h1  except C2 as e: h2 ...]. *)
Definition try_except {A} (body : M A) (clauses : list (ExcClass * (Exc -> M A))) : M A :=
  fun w st =>
    match body w st with
    | (st', Ok a) => (st', Ok a)
    | (st', Raise e) => handle clauses e w st'
    end.

(** [try: x = first; rest  except ...], where the clauses read the local
    [x]: it is bound only if [first] returned. *)
Definition try_assign {A B} (first : M A) (rest : A -> M B)
    (clauses : option A -> list (ExcClass * (Exc -> M B))) : M B :=
  fun w st =>
    match first w st with
    | (st', Raise e) => handle (clauses None) e w st'
    | (st', Ok x) => try_except (rest x) (clauses (Some x)) w st'
    end.

(** Reading a local that may not be bound yet. *)
Definition local {A} (name : string) (x : option A) : M A :=
  match x with
  | Some a => ret a
  | None =>
      raise (mkExc UnboundLocalError
               ("cannot access local variable '" ++ name
                  ++ "' where it is not associated with a value") None)
  end.

(** ** The parts of [requests] and of Python the client calls *)

(** Performs one call: records it and asks the world for the outcome. *)
Definition perform (req : Request) : M Response :=
  fun w st =>
    let st' := mkState (sent st ++ [req]) (stdout st) in
    match server w (sent st) req with
    | inl e => (st', Raise e)
    | inr r => (st', Ok r)
    end.

(** [requests.get(url, params=params)]. *)
Definition requests_get (url : string) (params : list (string * Z)) : M Response :=
  perform (mkRequest GET url params NoData []).

(** [requests.post(url, data=data, headers=headers)]. *)
Definition requests_post (url : string) (data : Data) (headers : list (string * string))
  : M Response :=
  perform (mkRequest POST url [] data headers).

(** The message [raise_for_status] builds; empty for a status that is not
    an error. *)
Definition http_error_msg (r : Response) : string :=
  let s := status_code r in
  if (400 <=? s) && (s <? 500)
  then (Str.of_Z s ++ " Client Error: " ++ reason r ++ " for url: " ++ response_url r)%string
  else if (500 <=? s) && (s <? 600)
  then (Str.of_Z s ++ " Server Error: " ++ reason r ++ " for url: " ++ response_url r)%string
  else "".

(** [response.raise_for_status()]. *)
Definition raise_for_status (r : Response) : M unit :=
  if String.eqb (http_error_msg r) "" then ret tt
  else raise (mkExc HTTPError (http_error_msg r) (Some r)).

(** [response.json()].  Since requests 2.27 a body that does not decode
    raises [requests.exceptions.JSONDecodeError], a [RequestException];
    any other exception of the decoder is not converted. *)
Definition response_json (r : Response) : M JSON :=
  fun w st =>
    match json_loads w (text r) with
    | inr v => (st, Ok v)
    | inl (NotJSON msg) => (st, Raise (mkExc JSONDecodeError msg None))
    | inl (DecoderRaised e) => (st, Raise e)
    end.

(** [str(v)], as an f-string applies it. *)
Definition str (v : JSON) : M string :=
  fun w st => (st, Ok (Py.str (repr_str w) v)).

(** [int(time.time())]. *)
Definition time : M Z := fun w st => (st, Ok (clock w)).

(** [v.get(key, default)]. *)
Definition get (v : JSON) (key : string) (default : JSON) : M JSON :=
  match v with
  | JDict entries =>
      ret (match Py.lookup key entries with Some x => x | None => default end)
  | _ =>
      raise (mkExc AttributeError
               ("'" ++ Py.type_name v ++ "' object has no attribute 'get'") None)
  end.

(** [v[0]]. *)
Definition item0 (v : JSON) : M JSON :=
  match v with
  | JList (x :: _) => ret x
  | JList [] => raise (mkExc IndexError "list index out of range" None)
  | JStr "" => raise (mkExc IndexError "string index out of range" None)
  | JStr s => ret (JStr (Str.first_char s))
  | JDict _ => raise (mkExc KeyError "0" None)
  | _ =>
      raise (mkExc TypeError ("'" ++ Py.type_name v ++ "' object is not subscriptable") None)
  end.

(** A parameter with a default: [None] is the argument left out. *)
Definition default {A} (d : A) (arg : option A) : A :=
  match arg with
  | Some a => a
  | None => d
  end.

(** ** client.py: the six operations *)

Definition register_user (username password : string) (base_url : option string) : M JSON :=
  let base_url := default "http://localhost:8000" base_url in
  let register_url := (base_url ++ "/register")%string in
  let user_data := JDict [("username", JStr username); ("password", JStr password)] in
  let headers := [("Content-Type", "application/json")] in
  try_assign
    (requests_post register_url (DataStr (Json.dumps user_data)) headers)
    (fun response => raise_for_status response ;; response_json response)
    (fun response =>
       [ (HTTPError, fun http_err =>
            print ("HTTP error occurred: " ++ exc_str http_err) ;;
            r <- local "response" response ;;
            when (status_code r =? 400) (print "Username may already be registered.") ;;
            raise http_err);
         (RequestException, fun req_err =>
            print ("A request error occurred: " ++ exc_str req_err) ;;
            raise req_err) ]).

Definition get_polls (skip limit : option Z) (base_url : option string) : M JSON :=
  let skip := default 0 skip in
  let limit := default 10 limit in
  let base_url := default "http://localhost:8000" base_url in
  let polls_url := (base_url ++ "/polls")%string in
  let params := [("skip", skip); ("limit", limit)] in
  try_assign
    (requests_get polls_url params)
    (fun response => raise_for_status response ;; response_json response)
    (fun _ =>
       [ (HTTPError, fun http_err =>
            print ("HTTP error occurred: " ++ exc_str http_err) ;;
            raise http_err);
         (RequestException, fun req_err =>
            print ("A request error occurred: " ++ exc_str req_err) ;;
            raise req_err) ]).

Definition login (username password : string) (base_url : option string) : M JSON :=
  let base_url := default "http://localhost:8000" base_url in
  let login_url := (base_url ++ "/login")%string in
  let form_data := [("username", username); ("password", password)] in
  let headers := [("Content-Type", "application/x-www-form-urlencoded")] in
  try_assign
    (requests_post login_url (DataForm form_data) headers)
    (fun response => raise_for_status response ;; response_json response)
    (fun response =>
       [ (HTTPError, fun http_err =>
            print ("HTTP error occurred: " ++ exc_str http_err) ;;
            r <- local "response" response ;;
            when (status_code r =? 400) (print "Incorrect username or password.") ;;
            raise http_err);
         (RequestException, fun req_err =>
            print ("A request error occurred: " ++ exc_str req_err) ;;
            raise req_err) ]).

Definition create_poll (question : string) (options : list string) (token : JSON)
    (base_url : option string) : M JSON :=
  let base_url := default "http://localhost:8000" base_url in
  let polls_url := (base_url ++ "/polls")%string in
  let poll_data := JDict [("question", JStr question); ("options", JList (map JStr options))] in
  bearer <- str token ;;
  let headers := [("Content-Type", "application/json");
                  ("Authorization", "Bearer " ++ bearer)%string] in
  try_assign
    (requests_post polls_url (DataStr (Json.dumps poll_data)) headers)
    (fun response => raise_for_status response ;; response_json response)
    (fun response =>
       [ (HTTPError, fun http_err =>
            print ("HTTP error occurred: " ++ exc_str http_err) ;;
            r <- local "response" response ;;
            when (status_code r =? 401) (print "Unauthorized. Please check your token.") ;;
            raise http_err);
         (RequestException, fun req_err =>
            print ("A request error occurred: " ++ exc_str req_err) ;;
            raise req_err) ]).

Definition cast_vote (poll_id option_id token : JSON) (base_url : option string) : M JSON :=
  let base_url := default "http://localhost:8000" base_url in
  poll <- str poll_id ;;
  let vote_url := (base_url ++ "/polls/" ++ poll ++ "/vote")%string in
  let vote_data := JDict [("option_id", option_id)] in
  bearer <- str token ;;
  let headers := [("Content-Type", "application/json");
                  ("Authorization", "Bearer " ++ bearer)%string] in
  try_assign
    (requests_post vote_url (DataStr (Json.dumps vote_data)) headers)
    (fun response => raise_for_status response ;; response_json response)
    (fun response =>
       [ (HTTPError, fun http_err =>
            print ("HTTP error occurred: " ++ exc_str http_err) ;;
            r <- local "response" response ;;
            (if status_code r =? 401 then print "Unauthorized. Please check your token."
             else if status_code r =? 404 then print "Poll or option not found."
             else ret tt) ;;
            raise http_err);
         (RequestException, fun req_err =>
            print ("A request error occurred: " ++ exc_str req_err) ;;
            raise req_err) ]).

Definition get_poll_results (poll_id : JSON) (base_url : option string) : M JSON :=
  let base_url := default "http://localhost:8000" base_url in
  poll <- str poll_id ;;
  let results_url := (base_url ++ "/polls/" ++ poll ++ "/results")%string in
  try_assign
    (requests_get results_url [])
    (fun response => raise_for_status response ;; response_json response)
    (fun response =>
       [ (HTTPError, fun http_err =>
            print ("HTTP error occurred: " ++ exc_str http_err) ;;
            r <- local "response" response ;;
            when (status_code r =? 404) (print "Poll not found.") ;;
            raise http_err);
         (RequestException, fun req_err =>
            print ("A request error occurred: " ++ exc_str req_err) ;;
            raise req_err) ]).

(** ** client.py: the example driver *)

(** ["\n" + "-" * 20 + "\n"]. *)
Definition rule : string := (Str.newline ++ Str.replicate 20 "-" ++ Str.newline)%string.

Definition password : string := "a-secure-password".
Definition question : string := "What is your favorite programming language?".
Definition options : list string := ["Python"; "JavaScript"; "Go"; "Rust"].

(** Step 1 (lines 189-196). *)
Definition step_register (username : string) : M unit :=
  print ("--- Step 1: Registering user '" ++ username ++ "' ---") ;;
  try_except
    (new_user <- register_user username password None ;;
     print "User registered successfully:" ;;
     shown <- str new_user ;;
     print shown)
    [ (RequestException, fun e => print "Failed to register user." ;; exit) ].

(** Step 2 (lines 200-210); binds [token]. *)
Definition step_login (username : string) : M JSON :=
  print ("--- Step 2: Logging in as '" ++ username ++ "' ---") ;;
  try_except
    (login_response <- login username password None ;;
     token <- get login_response "access_token" JNull ;;
     (if negb (Py.truthy token)
      then print "Failed to get access token from login response." ;; exit
      else ret tt) ;;
     print "Logged in successfully. Token received." ;;
     ret token)
    [ (RequestException, fun e => print "Failed to log in." ;; exit) ].

(** Step 3 (lines 214-232); binds [poll_id] and [option_id]. *)
Definition step_create (token : JSON) : M (JSON * JSON) :=
  print "--- Step 3: Creating a new poll ---" ;;
  try_except
    (new_poll <- create_poll question options token None ;;
     print "Poll created successfully:" ;;
     print (Json.dumps_indent 0 new_poll) ;;

     poll_id <- get new_poll "id" JNull ;;
     opts <- get new_poll "options" (JList [JDict []]) ;;
     first <- item0 opts ;;
     option_id <- get first "id" JNull ;;

     (if negb (Py.truthy poll_id) || negb (Py.truthy option_id)
      then print "Failed to get poll ID or option ID from the created poll." ;; exit
      else ret tt) ;;
     ret (poll_id, option_id))
    [ (RequestException, fun e => print "Failed to create poll." ;; exit) ].

(** Step 4 (lines 236-244). *)
Definition step_vote (poll_id option_id token : JSON) : M unit :=
  poll <- str poll_id ;;
  option <- str option_id ;;
  print ("--- Step 4: Casting a vote on poll " ++ poll ++ " for option " ++ option ++ " ---") ;;
  try_except
    (vote_confirmation <- cast_vote poll_id option_id token None ;;
     print "Vote cast successfully:" ;;
     print (Json.dumps_indent 0 vote_confirmation))
    [ (RequestException, fun e => print "Failed to cast vote.") ].

(** Step 5 (lines 248-254). *)
Definition step_results (poll_id : JSON) : M unit :=
  poll <- str poll_id ;;
  print ("--- Step 5: Retrieving results for poll " ++ poll ++ " ---") ;;
  try_except
    (results <- get_poll_results poll_id None ;;
     print "Poll results retrieved successfully:" ;;
     print (Json.dumps_indent 0 results))
    [ (RequestException, fun e => print "Failed to retrieve poll results.") ].

(** The body of [if __name__ == "__main__":]. *)
Definition main : M unit :=
  now <- time ;;
  let username := ("testuser_" ++ Str.of_Z now)%string in
  step_register username ;;
  print rule ;;
  token <- step_login username ;;
  print rule ;;
  ids <- step_create token ;;
  let '(poll_id, option_id) := ids in
  print rule ;;
  step_vote poll_id option_id token ;;
  print rule ;;
  step_results poll_id.

(** ** The operations as one family *)

Inductive Operation : Type :=
| RegisterUser (username password : string) (base_url : option string)
| GetPolls (skip limit : option Z) (base_url : option string)
| Login (username password : string) (base_url : option string)
| CreatePoll (question : string) (options : list string) (token : JSON)
    (base_url : option string)
| CastVote (poll_id option_id token : JSON) (base_url : option string)
| GetPollResults (poll_id : JSON) (base_url : option string).

Definition run (op : Operation) : M JSON :=
  match op with
  | RegisterUser u p b => register_user u p b
  | GetPolls s l b => get_polls s l b
  | Login u p b => login u p b
  | CreatePoll q o t b => create_poll q o t b
  | CastVote pid oid t b => cast_vote pid oid t b
  | GetPollResults pid b => get_poll_results pid b
  end.

(** The call each operation makes. *)
Definition request_of (w : World) (op : Operation) : Request :=
  let base := default "http://localhost:8000" in
  let bearer token :=
    [("Content-Type", "application/json");
     ("Authorization", "Bearer " ++ Py.str (repr_str w) token)%string] in
  match op with
  | RegisterUser u p b =>
      mkRequest POST (base b ++ "/register") []
        (DataStr (Json.dumps (JDict [("username", JStr u); ("password", JStr p)])))
        [("Content-Type", "application/json")]
  | GetPolls s l b =>
      mkRequest GET (base b ++ "/polls") [("skip", default 0 s); ("limit", default 10 l)]
        NoData []
  | Login u p b =>
      mkRequest POST (base b ++ "/login") []
        (DataForm [("username", u); ("password", p)])
        [("Content-Type", "application/x-www-form-urlencoded")]
  | CreatePoll q o t b =>
      mkRequest POST (base b ++ "/polls") []
        (DataStr (Json.dumps (JDict [("question", JStr q); ("options", JList (map JStr o))])))
        (bearer t)
  | CastVote pid oid t b =>
      mkRequest POST (base b ++ "/polls/" ++ Py.str (repr_str w) pid ++ "/vote") []
        (DataStr (Json.dumps (JDict [("option_id", oid)])))
        (bearer t)
  | GetPollResults pid b =>
      mkRequest GET (base b ++ "/polls/" ++ Py.str (repr_str w) pid ++ "/results") []
        NoData []
  end.

(** The diagnostic hint an operation prints for an error status, if any. *)
Definition hint_of (op : Operation) (status : Z) : list string :=
  match op with
  | RegisterUser _ _ _ =>
      if status =? 400 then ["Username may already be registered."] else []
  | GetPolls _ _ _ => []
  | Login _ _ _ =>
      if status =? 400 then ["Incorrect username or password."] else []
  | CreatePoll _ _ _ _ =>
      if status =? 401 then ["Unauthorized. Please check your token."] else []
  | CastVote _ _ _ _ =>
      if status =? 401 then ["Unauthorized. Please check your token."]
      else if status =? 404 then ["Poll or option not found."] else []
  | GetPollResults _ _ =>
      if status =? 404 then ["Poll not found."] else []
  end.

(** ** The error taxonomy of the specification *)

Inductive ErrorKind : Type :=
| HttpStatusError
| TransportError
| DecodeError
| OtherError.

(** The kind of an exception: [HTTPError] is the status error,
    [InvalidJSONError] and below the decoding error, every other
    [RequestException] a transport error. *)
Definition kind_of (e : Exc) : ErrorKind :=
  let c := exc_class e in
  if issubclass c HTTPError then HttpStatusError
  else if issubclass c InvalidJSONError then DecodeError
  else if issubclass c RequestException then TransportError
  else OtherError.

(** The result and the output of an operation that starts after the calls
    [history]. *)
Definition outcome (w : World) (history : list Request) (op : Operation) : Result JSON :=
  snd (run op w (mkState history [])).

Definition printed (w : World) (history : list Request) (op : Operation) : list string :=
  stdout (fst (run op w (mkState history []))).

(** What every operation does, in one description: the call is recorded,
    and the answer of the world decides the result and the lines printed. *)
Definition behaviour (w : World) (st : State) (op : Operation) : State * Result JSON :=
  let req := request_of w op in
  let after out := mkState (sent st ++ [req]) (stdout st ++ out) in
  match server w (sent st) req with
  | inl e =>
      if issubclass (exc_class e) HTTPError then
        match op with
        | GetPolls _ _ _ => (after ["HTTP error occurred: " ++ exc_str e]%string, Raise e)
        | _ =>
            (after ["HTTP error occurred: " ++ exc_str e]%string,
             Raise (mkExc UnboundLocalError
                      "cannot access local variable 'response' where it is not associated with a value"
                      None))
        end
      else if issubclass (exc_class e) RequestException then
        (after ["A request error occurred: " ++ exc_str e]%string, Raise e)
      else (mkState (sent st ++ [req]) (stdout st), Raise e)
  | inr r =>
      if String.eqb (http_error_msg r) "" then
        match json_loads w (text r) with
        | inr v => (mkState (sent st ++ [req]) (stdout st), Ok v)
        | inl (NotJSON msg) =>
            (after ["A request error occurred: " ++ msg]%string,
             Raise (mkExc JSONDecodeError msg None))
        | inl (DecoderRaised e) =>
            if issubclass (exc_class e) HTTPError then
              (after (("HTTP error occurred: " ++ exc_str e)%string
                        :: hint_of op (status_code r)),
               Raise e)
            else if issubclass (exc_class e) RequestException then
              (after ["A request error occurred: " ++ exc_str e]%string, Raise e)
            else (mkState (sent st ++ [req]) (stdout st), Raise e)
        end
      else
        (after (("HTTP error occurred: " ++ http_error_msg r)%string
                  :: hint_of op (status_code r)),
         Raise (mkExc HTTPError (http_error_msg r) (Some r)))
  end.

(** ** The driver's calls and its runs *)

Definition username (w : World) : string := ("testuser_" ++ Str.of_Z (clock w))%string.

Definition register_op (w : World) : Operation := RegisterUser (username w) password None.
Definition login_op (w : World) : Operation := Login (username w) password None.
Definition create_op (token : JSON) : Operation := CreatePoll question options token None.
Definition vote_op (poll_id option_id token : JSON) : Operation :=
  CastVote poll_id option_id token None.
Definition results_op (poll_id : JSON) : Operation := GetPollResults poll_id None.

(** The calls a run of the driver makes, in order. *)
Definition trace (w : World) : list Request := sent (fst (main w initial)).

(** The run ends by an exception ([SystemExit] from [exit()], or one that
    nothing catches) instead of reaching the end of the script. *)
Definition aborted (w : World) : Prop := exists e, snd (main w initial) = Raise e.

Definition failed (r : Result JSON) : Prop := exists e, r = Raise e.

(** Failed with an exception that [except RequestException] catches. *)
Definition request_failed (r : Result JSON) : Prop :=
  exists e, r = Raise e /\ issubclass (exc_class e) RequestException = true.

(** Step 1 went through. *)
Definition registered (w : World) : Prop :=
  exists user, outcome w [] (register_op w) = Ok user.

(** Step 2 went through and bound [token]. *)
Definition logged_in (w : World) (token : JSON) : Prop :=
  exists entries,
    outcome w [request_of w (register_op w)] (login_op w) = Ok (JDict entries)
    /\ Py.lookup "access_token" entries = Some token
    /\ Py.truthy token = true.

(** The calls made before step 3 answers. *)
Definition before_create (w : World) : list Request :=
  [request_of w (register_op w); request_of w (login_op w)].

(** Step 3 went through and bound [poll_id] and [option_id]. *)
Definition created (w : World) (token poll_id option_id : JSON) : Prop :=
  exists poll first others,
    outcome w (before_create w) (create_op token) = Ok (JDict poll)
    /\ Py.lookup "id" poll = Some poll_id
    /\ Py.lookup "options" poll = Some (JList (JDict first :: others))
    /\ Py.lookup "id" first = Some option_id
    /\ Py.truthy poll_id = true
    /\ Py.truthy option_id = true.

(** The created poll has a zero where the driver needs an id, or no option
    at all. *)
Definition unusable_ids (poll : list (string * JSON)) : Prop :=
  Py.lookup "id" poll = Some (JInt 0)
  \/ (exists first others,
        Py.lookup "options" poll = Some (JList (JDict first :: others))
        /\ Py.lookup "id" first = Some (JInt 0))
  \/ Py.lookup "options" poll = Some (JList []).

(** What is left of the script after each step. *)
Definition after_vote (poll_id : JSON) : M unit :=
  print rule ;;
  step_results poll_id.

Definition after_create (poll_id option_id token : JSON) : M unit :=
  print rule ;;
  step_vote poll_id option_id token ;;
  after_vote poll_id.

Definition after_login (token : JSON) : M unit :=
  print rule ;;
  ids <- step_create token ;;
  let '(poll_id, option_id) := ids in
  after_create poll_id option_id token.

Definition after_register (username : string) : M unit :=
  print rule ;;
  token <- step_login username ;;
  after_login token.

(** The operation [op] met the error response [r], printed [hint] after
    the error line, and raised the error of [raise_for_status] after one
    call. *)
Definition surfaced (w : World) (st : State) (op : Operation) (r : Response)
    (hint : string) : Prop :=
  run op w st
  = (mkState (sent st ++ [request_of w op])
       (stdout st ++ [("HTTP error occurred: " ++ http_error_msg r)%string; hint]),
     Raise (mkExc HTTPError (http_error_msg r) (Some r))).

(** The statuses for which the operation has no hint. *)
Definition unclassified (op : Operation) (status : Z) : Prop :=
  match op with
  | RegisterUser _ _ _ | Login _ _ _ => status <> 400
  | GetPolls _ _ _ => True
  | CreatePoll _ _ _ _ => status <> 401
  | CastVote _ _ _ _ => status <> 401 /\ status <> 404
  | GetPollResults _ _ => status <> 404
  end.

(** The call returned, or failed in a way [except RequestException]
    catches. *)
Definition settled (r : Result JSON) : Prop :=
  (exists v, r = Ok v) \/ request_failed r.

(** The five calls of a complete run, for the values the driver binds. *)
Definition script (w : World) (token poll_id option_id : JSON) : list Request :=
  [ request_of w (register_op w);
    request_of w (login_op w);
    request_of w (create_op token);
    request_of w (vote_op poll_id option_id token);
    request_of w (results_op poll_id) ].

(** ** Worlds for the examples *)

Module Example.

Definition repr_str (s : string) : string := ("'" ++ s ++ "'")%string.

(** The bodies the examples use, with the values they decode to. *)
Definition bodies : list (string * JSON) :=
  [ ("[]", JList []);
    ("{}", JDict []);
    (Py.dq "{'id': 7}", JDict [("id", JInt 7)]);
    (Py.dq "{'access_token': 'abc'}", JDict [("access_token", JStr "abc")]);
    (Py.dq "{'id': 3, 'options': [{'id': 5}]}",
     JDict [("id", JInt 3); ("options", JList [JDict [("id", JInt 5)]])]);
    (Py.dq "{'id': 0, 'options': [{'id': 5}]}",
     JDict [("id", JInt 0); ("options", JList [JDict [("id", JInt 5)]])]);
    (Py.dq "{'id': 3, 'options': [{'id': 0}]}",
     JDict [("id", JInt 3); ("options", JList [JDict [("id", JInt 0)]])]);
    (Py.dq "{'id': 3, 'options': []}",
     JDict [("id", JInt 3); ("options", JList [])]) ].

(** A number of 4301 digits, one more than [int] converts. *)
Definition big_number : string := Str.replicate 4301 "1".

Definition too_many_digits : Exc :=
  mkExc ValueError
    "Exceeds the limit (4300 digits) for integer string conversion: value has 4301 digits; use sys.set_int_max_str_digits() to increase the limit"
    None.

Definition loads (body : string) : DecodeFailure + JSON :=
  match Py.lookup body bodies with
  | Some v => inr v
  | None =>
      if String.eqb body big_number then inl (DecoderRaised too_many_digits)
      else inl (NotJSON "Expecting value: line 1 column 1 (char 0)")
  end.

Definition refused : Exc := mkExc ConnectionError "Connection refused" None.

Definition reply (status : Z) (body : string) : Exc + Response :=
  inr (mkResponse status "" "http://localhost:8000/" body).

(** The n-th call gets the n-th outcome of the script; the connection
    is refused once the script is over. *)
Definition scripted (script : list (Exc + Response)) (history : list Request)
    (req : Request) : Exc + Response :=
  nth (List.length history) script (inl refused).

Definition world (script : list (Exc + Response)) : World :=
  mkWorld (scripted script) loads repr_str 1700000000.

(** Registration, login and creation succeed, the vote meets a 404. *)
Definition vote_fails : World :=
  world [ reply 200 (Py.dq "{'id': 7}");
          reply 200 (Py.dq "{'access_token': 'abc'}");
          reply 200 (Py.dq "{'id': 3, 'options': [{'id': 5}]}");
          reply 404 "{}";
          reply 200 "{}" ].

(** Registration, login and creation succeed; the answer to the vote is a
    number too long for the decoder. *)
Definition vote_overflows : World :=
  world [ reply 200 (Py.dq "{'id': 7}");
          reply 200 (Py.dq "{'access_token': 'abc'}");
          reply 200 (Py.dq "{'id': 3, 'options': [{'id': 5}]}");
          reply 200 big_number;
          reply 200 "{}" ].

(** The login answers without a token. *)
Definition no_token : World :=
  world [ reply 200 (Py.dq "{'id': 7}"); reply 200 "{}" ].

(** The login answers with a list. *)
Definition login_list : World :=
  world [ reply 200 (Py.dq "{'id': 7}"); reply 200 "[]" ].

(** Every step succeeds but the last, which meets a 404. *)
Definition results_fail : World :=
  world [ reply 200 (Py.dq "{'id': 7}");
          reply 200 (Py.dq "{'access_token': 'abc'}");
          reply 200 (Py.dq "{'id': 3, 'options': [{'id': 5}]}");
          reply 200 "{}";
          reply 404 "{}" ].

(** The created poll comes back without its options. *)
Definition no_options : World :=
  world [ reply 200 (Py.dq "{'id': 7}");
          reply 200 (Py.dq "{'access_token': 'abc'}");
          reply 200 (Py.dq "{'id': 7}") ].

(** The service creates the poll and numbers it 0. *)
Definition poll_zero : World :=
  world [ reply 200 (Py.dq "{'id': 7}");
          reply 200 (Py.dq "{'access_token': 'abc'}");
          reply 200 (Py.dq "{'id': 0, 'options': [{'id': 5}]}");
          reply 200 "{}";
          reply 200 "{}" ].

End Example.

(** * Properties *)

(** ** The six functions against the single description *)

Lemma run_behaviour (w : World) (st : State) (op : Operation) :
  run op w st = behaviour w st op.
Proof.
  destruct op; unfold behaviour, run, register_user, get_polls, login, create_poll,
    cast_vote, get_poll_results, try_assign, requests_post, requests_get, perform,
    bind, str; cbn [request_of];
  match goal with
  | |- context [server w (sent st) ?r] => destruct (server w (sent st) r) as [e|r']
  end.
  all: unfold handle, try_except, bind, raise_for_status; cbn [select].
  all: try (destruct (issubclass (exc_class e) HTTPError) eqn:Hh;
            [ | destruct (issubclass (exc_class e) RequestException) eqn:Hr ]).
  all: try reflexivity.
  all: destruct (String.eqb (http_error_msg r') "") eqn:Hm;
    [ unfold ret, response_json;
      destruct (json_loads w (text r')) as [[msg|e]|v];
      [ reflexivity | | reflexivity ];
      unfold handle; cbn [select];
      destruct (issubclass (exc_class e) HTTPError) eqn:Hh;
      [ | destruct (issubclass (exc_class e) RequestException) eqn:Hr; reflexivity ]
    | ].
  all: unfold raise, hint_of; cbn - [String.append].
  all: repeat match goal with
         | |- context [if ?c =? ?d then _ else _] => destruct (c =? d)
         end;
       cbn; rewrite <- ?app_assoc; reflexivity.
Qed.

Lemma append_nonempty (a b : string) (c : ascii) :
  String.eqb (a ++ String c b) "" = false.
Proof. destruct a; reflexivity. Qed.

Lemma http_error_msg_error (r : Response) :
  400 <= status_code r < 600 -> String.eqb (http_error_msg r) "" = false.
Proof.
  intros H. unfold http_error_msg.
  destruct ((400 <=? status_code r) && (status_code r <? 500)) eqn:E4.
  - apply append_nonempty.
  - destruct ((500 <=? status_code r) && (status_code r <? 600)) eqn:E5.
    + apply append_nonempty.
    + exfalso.
      apply andb_false_iff in E4, E5.
      rewrite Z.leb_gt, Z.ltb_ge in E4, E5. lia.
Qed.

Lemma http_error_msg_pass (r : Response) :
  status_code r < 400 \/ 600 <= status_code r -> http_error_msg r = "".
Proof.
  intros H. unfold http_error_msg.
  destruct ((400 <=? status_code r) && (status_code r <? 500)) eqn:E4.
  - apply andb_true_iff in E4. rewrite Z.leb_le, Z.ltb_lt in E4. lia.
  - destruct ((500 <=? status_code r) && (status_code r <? 600)) eqn:E5; [ | reflexivity ].
    apply andb_true_iff in E5. rewrite Z.leb_le, Z.ltb_lt in E5. lia.
Qed.

(** Every operation makes exactly one call, whatever comes back. *)
Lemma run_sends_once (w : World) (st : State) (op : Operation) :
  sent (fst (run op w st)) = sent st ++ [request_of w op].
Proof.
  rewrite run_behaviour. unfold behaviour.
  destruct (server w (sent st) (request_of w op)) as [e|r].
  - destruct (issubclass (exc_class e) HTTPError);
      [ destruct op; reflexivity | ].
    destruct (issubclass (exc_class e) RequestException); reflexivity.
  - destruct (String.eqb (http_error_msg r) ""); [ | reflexivity ].
    destruct (json_loads w (text r)) as [[msg|e]|v]; try reflexivity.
    destruct (issubclass (exc_class e) HTTPError); [ reflexivity | ].
    destruct (issubclass (exc_class e) RequestException); reflexivity.
Qed.

(** ** Results and errors of one operation *)

(** C1.  For every operation and every response with a status in 200..299
    whose body decodes to the JSON value [X], the operation returns [X]
    itself; it makes the one call and prints nothing. *)
Theorem success_returns_body (op : Operation) (w : World) (st : State)
    (r : Response) (X : JSON) :
  server w (sent st) (request_of w op) = inr r ->
  200 <= status_code r < 300 ->
  json_loads w (text r) = inr X ->
  run op w st = (mkState (sent st ++ [request_of w op]) (stdout st), Ok X).
Proof.
  intros Hsrv Hstatus Hbody.
  rewrite run_behaviour. unfold behaviour. rewrite Hsrv.
  rewrite http_error_msg_pass by lia.
  cbn [String.eqb]. rewrite Hbody. reflexivity.
Qed.

Lemma success_returns_body_witness :
  run (GetPolls (Some 5) (Some 2) None) (Example.world [Example.reply 200 "[]"]) initial
  = (mkState [request_of (Example.world [Example.reply 200 "[]"])
                (GetPolls (Some 5) (Some 2) None)] [],
     Ok (JList [])).
Proof.
  apply (success_returns_body (GetPolls (Some 5) (Some 2) None)
           (Example.world [Example.reply 200 "[]"]) initial
           (mkResponse 200 "" "http://localhost:8000/" "[]") (JList [])).
  - reflexivity.
  - cbn. lia.
  - reflexivity.
Defined.

(** C2, as the specification words it, fails: a response with status 304 is
    not in 200..299, yet [raise_for_status] lets it pass and the operation
    returns the decoded body. *)
Lemma non_2xx_may_return :
  ~ (forall (op : Operation) (w : World) (st : State) (r : Response),
        server w (sent st) (request_of w op) = inr r ->
        ~ (200 <= status_code r < 300) ->
        exists e, snd (run op w st) = Raise e
                  /\ kind_of e = HttpStatusError
                  /\ exc_response e = Some r).
Proof.
  intros claim.
  destruct (claim (GetPolls None None None) (Example.world [Example.reply 304 "[]"])
              initial (mkResponse 304 "" "http://localhost:8000/" "[]"))
    as [e [Hrun _]].
  - reflexivity.
  - cbn. lia.
  - vm_compute in Hrun. discriminate Hrun.
Qed.

(** C2, amended.  For every operation and every response with a status [S]
    in 400..599, the operation raises the [HTTPError] that
    [raise_for_status] builds: it carries the response itself, hence the
    status [S] and the body; the operation returns no value. *)
Theorem error_status_raises (op : Operation) (w : World) (st : State) (r : Response) :
  server w (sent st) (request_of w op) = inr r ->
  400 <= status_code r < 600 ->
  exists e,
    snd (run op w st) = Raise e
    /\ kind_of e = HttpStatusError
    /\ exc_class e = HTTPError
    /\ exc_response e = Some r.
Proof.
  intros Hsrv Hstatus.
  exists (mkExc HTTPError (http_error_msg r) (Some r)).
  rewrite run_behaviour. unfold behaviour. rewrite Hsrv.
  rewrite http_error_msg_error by assumption.
  repeat split.
Qed.

Lemma error_status_raises_witness :
  exists e,
    snd (run (Login "ann" "pw" None) (Example.world [Example.reply 503 "busy"]) initial)
    = Raise e
    /\ kind_of e = HttpStatusError
    /\ exc_class e = HTTPError
    /\ exc_response e = Some (mkResponse 503 "" "http://localhost:8000/" "busy").
Proof.
  apply (error_status_raises (Login "ann" "pw" None)
           (Example.world [Example.reply 503 "busy"]) initial).
  - reflexivity.
  - cbn. lia.
Defined.

(** C3.  For every operation, when the call gets no response and
    [requests] raises a transport exception [e] (a [RequestException] that
    is neither an [HTTPError] nor a JSON error: [ConnectionError],
    [Timeout], [ChunkedEncodingError], ...), the operation raises [e]
    itself after one diagnostic line.  Its kind is the transport kind and
    its class is not [HTTPError]. *)
Theorem transport_failure_propagates (op : Operation) (w : World) (st : State) (e : Exc) :
  server w (sent st) (request_of w op) = inl e ->
  kind_of e = TransportError ->
  run op w st
  = (mkState (sent st ++ [request_of w op])
       (stdout st ++ ["A request error occurred: " ++ exc_str e]%string),
     Raise e)
  /\ kind_of e <> HttpStatusError
  /\ issubclass (exc_class e) HTTPError = false.
Proof.
  intros Hsrv Hkind.
  assert (Hclass : issubclass (exc_class e) HTTPError = false
                   /\ issubclass (exc_class e) RequestException = true).
  { unfold kind_of in Hkind.
    destruct (issubclass (exc_class e) HTTPError); [ discriminate | ].
    destruct (issubclass (exc_class e) InvalidJSONError); [ discriminate | ].
    destruct (issubclass (exc_class e) RequestException); [ auto | discriminate ]. }
  destruct Hclass as [Hhttp Hreq].
  split; [ | split; [ rewrite Hkind; discriminate | exact Hhttp ] ].
  rewrite run_behaviour. unfold behaviour.
  rewrite Hsrv, Hhttp, Hreq. reflexivity.
Qed.

Lemma transport_failure_propagates_witness :
  run (GetPollResults (JInt 3) None) (Example.world []) initial
  = (mkState [request_of (Example.world []) (GetPollResults (JInt 3) None)]
       ["A request error occurred: Connection refused"],
     Raise Example.refused)
  /\ kind_of Example.refused <> HttpStatusError
  /\ issubclass (exc_class Example.refused) HTTPError = false.
Proof.
  apply (transport_failure_propagates (GetPollResults (JInt 3) None)
           (Example.world []) initial Example.refused).
  - reflexivity.
  - reflexivity.
Defined.

(** The classes [requests] raises when no response arrives are of the
    transport kind. *)
Lemma transport_classes (msg : string) :
  Forall (fun c => kind_of (mkExc c msg None) = TransportError)
    [ConnectionError; ProxyError; SSLError; Timeout; ConnectTimeout; ReadTimeout;
     TooManyRedirects; InvalidURL; InvalidHeader; ChunkedEncodingError;
     ContentDecodingError].
Proof. repeat constructor. Qed.

(** C4.  On the classified statuses the hint is printed, and after it the
    [HTTPError] of the response is raised to the caller, after the one
    call: 400 on [register_user] and on [login], 401 on [create_poll] and on
    [cast_vote], 404 on [cast_vote] and on [get_poll_results]. *)
Theorem hint_then_same_error (w : World) (st : State) (op : Operation) (r : Response) :
  server w (sent st) (request_of w op) = inr r ->
  (forall u p b, op = RegisterUser u p b -> status_code r = 400 ->
     surfaced w st op r "Username may already be registered.")
  /\ (forall u p b, op = Login u p b -> status_code r = 400 ->
        surfaced w st op r "Incorrect username or password.")
  /\ (forall q o t b, op = CreatePoll q o t b -> status_code r = 401 ->
        surfaced w st op r "Unauthorized. Please check your token.")
  /\ (forall pid oid t b, op = CastVote pid oid t b -> status_code r = 401 ->
        surfaced w st op r "Unauthorized. Please check your token.")
  /\ (forall pid oid t b, op = CastVote pid oid t b -> status_code r = 404 ->
        surfaced w st op r "Poll or option not found.")
  /\ (forall pid b, op = GetPollResults pid b -> status_code r = 404 ->
        surfaced w st op r "Poll not found.").
Proof.
  intros Hsrv.
  repeat split; intros; subst op; unfold surfaced;
    rewrite run_behaviour; unfold behaviour; rewrite Hsrv;
    rewrite http_error_msg_error by lia;
    unfold hint_of;
    match goal with H : status_code r = _ |- _ => rewrite H end;
    reflexivity.
Qed.

Lemma hint_then_same_error_witness :
  surfaced (Example.world [Example.reply 404 "{}"]) initial
    (CastVote (JInt 3) (JInt 5) (JStr "abc") None)
    (mkResponse 404 "" "http://localhost:8000/" "{}")
    "Poll or option not found.".
Proof.
  refine (proj1 (proj2 (proj2 (proj2 (proj2
            (hint_then_same_error (Example.world [Example.reply 404 "{}"]) initial
               (CastVote (JInt 3) (JInt 5) (JStr "abc") None)
               (mkResponse 404 "" "http://localhost:8000/" "{}") _)))))
            (JInt 3) (JInt 5) (JStr "abc") None _ _);
    reflexivity.
Defined.

(** The hint decides nothing: with or without one, an error response leaves
    the same exception and the same single call. *)
Lemma hint_changes_output_only (w : World) (st : State) (op : Operation) (r : Response) :
  server w (sent st) (request_of w op) = inr r ->
  400 <= status_code r < 600 ->
  run op w st
  = (mkState (sent st ++ [request_of w op])
       (stdout st ++ ("HTTP error occurred: " ++ http_error_msg r)%string
                       :: hint_of op (status_code r)),
     Raise (mkExc HTTPError (http_error_msg r) (Some r))).
Proof.
  intros Hsrv Hstatus.
  rewrite run_behaviour. unfold behaviour. rewrite Hsrv.
  rewrite http_error_msg_error by assumption. reflexivity.
Qed.



(** ** The calls the operations build *)

Lemma code_digit (d : Z) : 0 <= d < 10 -> Str.code (Str.digit d) = 48 + d.
Proof.
  intros H. unfold Str.code, Str.digit.
  rewrite N_ascii_embedding by lia. lia.
Qed.

Lemma digit_unreserved (d : Z) : 0 <= d < 10 -> Url.unreserved (Str.code (Str.digit d)) = true.
Proof.
  intros H. rewrite code_digit by assumption. unfold Url.unreserved.
  replace (48 <=? 48 + d) with true by (symmetry; apply Z.leb_le; lia).
  replace (48 + d <=? 57) with true by (symmetry; apply Z.leb_le; lia).
  reflexivity.
Qed.

Lemma quote_plus_digits (fuel : nat) : forall (n : Z) (acc : string),
  Url.quote_plus acc = acc ->
  Url.quote_plus (Str.digits fuel n acc) = Str.digits fuel n acc.
Proof.
  induction fuel as [|fuel IH]; intros n acc Hacc; cbn [Str.digits].
  - exact Hacc.
  - assert (Hstep : Url.quote_plus (String (Str.digit (n mod 10)) acc)
                    = String (Str.digit (n mod 10)) acc).
    { cbn [Url.quote_plus].
      rewrite digit_unreserved by (apply Z.mod_pos_bound; lia).
      now rewrite Hacc. }
    destruct (n / 10 =? 0); [ exact Hstep | now apply IH ].
Qed.

Lemma string_app_assoc (a b c : string) : ((a ++ b) ++ c = a ++ (b ++ c))%string.
Proof. induction a as [|x a IH]; cbn; [ reflexivity | now rewrite IH ]. Qed.

(** A decimal number needs no escaping in a query. *)
Lemma quote_plus_of_Z (n : Z) : Url.quote_plus (Str.of_Z n) = Str.of_Z n.
Proof.
  unfold Str.of_Z. destruct (n <? 0).
  - change (Url.quote_plus (String "-" ?s)) with (String "-" (Url.quote_plus s)).
    now rewrite quote_plus_digits.
  - now apply quote_plus_digits.
Qed.

(** C8.  [get_polls(skip, limit)] makes one GET of [{base}/polls] with
    exactly the parameters [skip] and [limit], in this order, which
    [requests] sends as [?skip=..&limit=..]; [get_polls(5, 2)] asks for
    [/polls?skip=5&limit=2]; left out, [skip] is 0 and [limit] is 10. *)
Theorem get_polls_query (skip limit : Z) (base_url : option string) (w : World) (st : State) :
  let base := default "http://localhost:8000" base_url in
  let req := mkRequest GET (base ++ "/polls") [("skip", skip); ("limit", limit)] NoData [] in
  sent (fst (get_polls (Some skip) (Some limit) base_url w st)) = sent st ++ [req]
  /\ wire_url req
     = (base ++ "/polls?skip=" ++ Str.of_Z skip ++ "&limit=" ++ Str.of_Z limit)%string
  /\ wire_url (mkRequest GET "http://localhost:8000/polls" [("skip", 5); ("limit", 2)]
                 NoData [])
     = "http://localhost:8000/polls?skip=5&limit=2"
  /\ get_polls None None base_url = get_polls (Some 0) (Some 10) base_url.
Proof.
  cbv zeta. repeat split.
  - exact (run_sends_once w st (GetPolls (Some skip) (Some limit) base_url)).
  - unfold wire_url, Url.urlencode. cbn [params url map fst snd Str.join].
    rewrite !quote_plus_of_Z.
    rewrite !string_app_assoc. reflexivity.
Qed.

(** C7.  [register_user] posts to [{base}/register] the [json.dumps] of the
    dict of [username] and [password], under [Content-Type:
    application/json]; [login] posts to [{base}/login] the same two fields
    as a form, which goes out as [username=..&password=..], under
    [Content-Type: application/x-www-form-urlencoded]. *)
Theorem register_json_login_form (username password : string) (base_url : option string)
    (w : World) (st : State) :
  let base := default "http://localhost:8000" base_url in
  let user_data := JDict [("username", JStr username); ("password", JStr password)] in
  let form_data := [("username", username); ("password", password)] in
  sent (fst (register_user username password base_url w st))
  = sent st ++ [mkRequest POST (base ++ "/register") [] (DataStr (Json.dumps user_data))
                  [("Content-Type", "application/json")]]
  /\ Json.dumps user_data
     = (Py.dq "{'username': " ++ Json.quote username
          ++ Py.dq ", 'password': " ++ Json.quote password ++ "}")%string
  /\ sent (fst (login username password base_url w st))
     = sent st ++ [mkRequest POST (base ++ "/login") [] (DataForm form_data)
                     [("Content-Type", "application/x-www-form-urlencoded")]]
  /\ wire_body (DataForm form_data)
     = ("username=" ++ Url.quote_plus username
          ++ "&password=" ++ Url.quote_plus password)%string.
Proof.
  cbv zeta. repeat split.
  - exact (run_sends_once w st (RegisterUser username password base_url)).
  - cbn [Json.dumps map fst snd Str.join].
    rewrite !string_app_assoc. reflexivity.
  - exact (run_sends_once w st (Login username password base_url)).
Qed.

(** C5, as the specification words it, fails on the bytes: [json.dumps]
    writes its default separators, a comma and a colon each followed by a
    space, so the body of [create_poll("Q", ["A", "B"], token)] is not the
    compact text. *)
Lemma create_poll_body_is_not_compact :
  exists req,
    sent (fst (create_poll "Q" ["A"; "B"] (JStr "abc") None (Example.world []) initial))
    = [req]
    /\ wire_body (data req) = Py.dq "{'question': 'Q', 'options': ['A', 'B']}"
    /\ wire_body (data req) <> Py.dq "{'question':'Q','options':['A','B']}".
Proof.
  eexists. split; [ reflexivity | ].
  split; [ reflexivity | ].
  vm_compute. discriminate.
Qed.

(** C5, amended.  [create_poll(Q, O, T)] makes one POST to [{base}/polls]
    whose body is exactly [json.dumps] of the dict of [question] and
    [options], in this order and with the default separators [", "] and
    [": "], under the headers [Content-Type: application/json] and
    [Authorization: Bearer T]; for [Q = "Q"] and [O = ["A", "B"]] the body
    is exactly [{"question": "Q", "options": ["A", "B"]}]. *)
Theorem create_poll_request (Q : string) (O : list string) (T : string)
    (base_url : option string) (w : World) (st : State) :
  let base := default "http://localhost:8000" base_url in
  let poll_data := JDict [("question", JStr Q); ("options", JList (map JStr O))] in
  sent (fst (create_poll Q O (JStr T) base_url w st))
  = sent st ++ [mkRequest POST (base ++ "/polls") [] (DataStr (Json.dumps poll_data))
                  [("Content-Type", "application/json");
                   ("Authorization", "Bearer " ++ T)%string]]
  /\ Json.dumps poll_data
     = (Py.dq "{'question': " ++ Json.quote Q
          ++ Py.dq ", 'options': [" ++ Str.join ", " (map Json.quote O) ++ "]}")%string
  /\ Json.dumps (JDict [("question", JStr "Q"); ("options", JList (map JStr ["A"; "B"]))])
     = Py.dq "{'question': 'Q', 'options': ['A', 'B']}".
Proof.
  cbv zeta. repeat split.
  - exact (run_sends_once w st (CreatePoll Q O (JStr T) base_url)).
  - cbn [Json.dumps map fst snd Str.join].
    rewrite map_map. cbn [Json.dumps Json.scalar].
    rewrite !string_app_assoc. reflexivity.
Qed.

(** ** The driver *)

(** An operation run in any state makes its call and ends as [outcome]
    says; only the lines printed before it differ. *)
Lemma run_outcome (op : Operation) (w : World) (st : State) :
  exists out,
    run op w st
    = (mkState (sent st ++ [request_of w op]) (stdout st ++ out), outcome w (sent st) op).
Proof.
  unfold outcome. rewrite !run_behaviour. unfold behaviour. cbn [sent stdout].
  destruct (server w (sent st) (request_of w op)) as [e|r].
  - destruct (issubclass (exc_class e) HTTPError).
    + destruct op; eexists; reflexivity.
    + destruct (issubclass (exc_class e) RequestException).
      * eexists; reflexivity.
      * exists []. now rewrite app_nil_r.
  - destruct (String.eqb (http_error_msg r) ""); [ | eexists; reflexivity ].
    destruct (json_loads w (text r)) as [[msg|e]|v].
    + eexists; reflexivity.
    + destruct (issubclass (exc_class e) HTTPError); [ eexists; reflexivity | ].
      destruct (issubclass (exc_class e) RequestException);
        [ eexists; reflexivity | exists []; now rewrite app_nil_r ].
    + exists []. now rewrite app_nil_r.
Qed.

Ltac run_as op :=
  let out := fresh "out" in
  let Hrun := fresh "Hrun" in
  match goal with
  | |- context [?f ?w ?st] =>
      change (f w st) with (run op w st);
      destruct (run_outcome op w st) as [out Hrun];
      rewrite Hrun; clear Hrun; cbn [sent stdout]
  end.

(** A single clause [except RequestException]. *)
Lemma handle_request {A} (h : Exc -> M A) (e : Exc) (w : World) (st : State) :
  handle [(RequestException, h)] e w st
  = if issubclass (exc_class e) RequestException then h e w st else (st, Raise e).
Proof.
  unfold handle. cbn [select].
  destruct (issubclass (exc_class e) RequestException); reflexivity.
Qed.

Lemma step_register_sends (u : string) (w : World) (st : State) :
  sent (fst (step_register u w st))
  = sent st ++ [request_of w (RegisterUser u password None)].
Proof.
  unfold step_register, bind, try_except, print at 1. cbn [sent stdout].
  run_as (RegisterUser u password None).
  destruct (outcome w (sent st) (RegisterUser u password None)) as [v|e].
  - reflexivity.
  - rewrite handle_request.
    destruct (issubclass (exc_class e) RequestException); reflexivity.
Qed.

Lemma step_register_result (u : string) (w : World) (st : State) :
  snd (step_register u w st)
  = match outcome w (sent st) (RegisterUser u password None) with
    | Ok _ => Ok tt
    | Raise e =>
        Raise (if issubclass (exc_class e) RequestException then system_exit else e)
    end.
Proof.
  unfold step_register, bind, try_except, print at 1. cbn [sent stdout].
  run_as (RegisterUser u password None).
  destruct (outcome w (sent st) (RegisterUser u password None)) as [v|e].
  - reflexivity.
  - rewrite handle_request.
    destruct (issubclass (exc_class e) RequestException); reflexivity.
Qed.

Lemma step_login_sends (u : string) (w : World) (st : State) :
  sent (fst (step_login u w st)) = sent st ++ [request_of w (Login u password None)].
Proof.
  unfold step_login, bind, try_except, print at 1. cbn [sent stdout].
  run_as (Login u password None).
  destruct (outcome w (sent st) (Login u password None)) as [v|e].
  - destruct v; cbn [get]; unfold raise, ret; rewrite ?handle_request;
      try reflexivity.
    destruct (Py.truthy _); reflexivity.
  - rewrite handle_request.
    destruct (issubclass (exc_class e) RequestException); reflexivity.
Qed.

Lemma step_login_fails (u : string) (w : World) (st : State) (e : Exc) :
  outcome w (sent st) (Login u password None) = Raise e ->
  exists e', snd (step_login u w st) = Raise e'.
Proof.
  intros Hout.
  unfold step_login, bind, try_except, print at 1. cbn [sent stdout].
  run_as (Login u password None).
  rewrite Hout, handle_request.
  destruct (issubclass (exc_class e) RequestException); eexists; reflexivity.
Qed.

Lemma step_login_binds (u : string) (w : World) (st : State)
    (entries : list (string * JSON)) (token : JSON) :
  outcome w (sent st) (Login u password None) = Ok (JDict entries) ->
  Py.lookup "access_token" entries = Some token ->
  Py.truthy token = true ->
  snd (step_login u w st) = Ok token.
Proof.
  intros Hout Hget Htruthy.
  unfold step_login, bind, try_except, print at 1. cbn [sent stdout].
  run_as (Login u password None).
  rewrite Hout. cbn [get]. rewrite Hget. unfold ret at 1.
  rewrite Htruthy. reflexivity.
Qed.

(** Splits on a scrutinee that is not itself a case analysis. *)
Ltac split_innermost :=
  match goal with
  | |- context [match ?x with _ => _ end] =>
      lazymatch x with
      | context [match _ with _ => _ end] => fail
      | _ => destruct x eqn:?
      end
  end.

Ltac run_step :=
  repeat first
    [ rewrite handle_request
    | progress cbn [get item0 fst snd sent stdout exc_class issubclass ExcClass_eqb
                    ancestors existsb orb negb Py.truthy Z.eqb]
    | progress unfold ret, raise, exit, print, bind
    | match goal with
      | |- context [get ?v _ _ _ _] => is_var v; destruct v
      | |- context [item0 ?v _ _] => is_var v; destruct v
      end
    | split_innermost ].

Lemma step_create_sends (token : JSON) (w : World) (st : State) :
  sent (fst (step_create token w st))
  = sent st ++ [request_of w (CreatePoll question options token None)].
Proof.
  unfold step_create, bind, try_except, print at 1. cbn [sent stdout].
  run_as (CreatePoll question options token None).
  run_step; reflexivity.
Qed.

Lemma step_create_fails (token : JSON) (w : World) (st : State) (e : Exc) :
  outcome w (sent st) (CreatePoll question options token None) = Raise e ->
  exists e', snd (step_create token w st) = Raise e'.
Proof.
  intros Hout.
  unfold step_create, bind, try_except, print at 1. cbn [sent stdout].
  run_as (CreatePoll question options token None).
  rewrite Hout, handle_request.
  destruct (issubclass (exc_class e) RequestException); eexists; reflexivity.
Qed.

Lemma step_create_binds (token : JSON) (w : World) (st : State)
    (poll first : list (string * JSON)) (others : list JSON) (poll_id option_id : JSON) :
  outcome w (sent st) (CreatePoll question options token None) = Ok (JDict poll) ->
  Py.lookup "id" poll = Some poll_id ->
  Py.lookup "options" poll = Some (JList (JDict first :: others)) ->
  Py.lookup "id" first = Some option_id ->
  Py.truthy poll_id = true ->
  Py.truthy option_id = true ->
  snd (step_create token w st) = Ok (poll_id, option_id).
Proof.
  intros Hout Hid Hopts Hfirst Hpoll Hoption.
  unfold step_create, bind, try_except, print at 1. cbn [sent stdout].
  run_as (CreatePoll question options token None).
  rewrite Hout. unfold print, ret. cbn [get item0 sent stdout].
  rewrite Hid, Hopts. unfold ret. cbn [item0 get]. unfold ret. cbn [get].
  rewrite Hfirst. unfold ret. rewrite Hpoll, Hoption. reflexivity.
Qed.

Lemma step_create_rejects (token : JSON) (w : World) (st : State)
    (poll : list (string * JSON)) :
  outcome w (sent st) (CreatePoll question options token None) = Ok (JDict poll) ->
  unusable_ids poll ->
  exists e', snd (step_create token w st) = Raise e'.
Proof.
  intros Hout Hbad.
  unfold step_create, bind, try_except, print at 1. cbn [sent stdout].
  run_as (CreatePoll question options token None).
  rewrite Hout. unfold print, ret. cbn [get item0 sent stdout].
  destruct Hbad as [Hid | [(first & others & Hopts & Hfirst) | Hopts]].
  - rewrite Hid. run_step; eexists; reflexivity.
  - rewrite Hopts. unfold ret. cbn [item0 get]. unfold ret. cbn [get]. rewrite Hfirst.
    destruct (Py.lookup "id" poll) as [poll_id|]; unfold ret; cbn [Py.truthy Z.eqb negb];
      rewrite orb_true_r; run_step; eexists; reflexivity.
  - rewrite Hopts. run_step; eexists; reflexivity.
Qed.

Lemma step_vote_sends (poll_id option_id token : JSON) (w : World) (st : State) :
  sent (fst (step_vote poll_id option_id token w st))
  = sent st ++ [request_of w (CastVote poll_id option_id token None)].
Proof.
  unfold step_vote, bind, try_except, str, print at 1. cbn [sent stdout].
  run_as (CastVote poll_id option_id token None).
  run_step; reflexivity.
Qed.

(** Step 4 ends normally whether the vote was cast or the call failed
    with a request exception. *)
Lemma step_vote_continues (poll_id option_id token : JSON) (w : World) (st : State) :
  (exists v, outcome w (sent st) (CastVote poll_id option_id token None) = Ok v)
  \/ request_failed (outcome w (sent st) (CastVote poll_id option_id token None)) ->
  snd (step_vote poll_id option_id token w st) = Ok tt.
Proof.
  intros Hout.
  unfold step_vote, bind, try_except, str, print at 1. cbn [sent stdout].
  run_as (CastVote poll_id option_id token None).
  destruct Hout as [[v Hv] | (e & He & Hclass)].
  - rewrite Hv. reflexivity.
  - rewrite He, handle_request, Hclass. reflexivity.
Qed.

Lemma step_results_sends (poll_id : JSON) (w : World) (st : State) :
  sent (fst (step_results poll_id w st))
  = sent st ++ [request_of w (GetPollResults poll_id None)].
Proof.
  unfold step_results, bind, try_except, str, print at 1. cbn [sent stdout].
  run_as (GetPollResults poll_id None).
  run_step; reflexivity.
Qed.

(** *** Sequencing *)

Lemma bind_ok {A B} (m : M A) (k : A -> M B) (w : World) (st : State) (a : A) :
  snd (m w st) = Ok a -> bind m k w st = k a w (fst (m w st)).
Proof. unfold bind. destruct (m w st) as [st' r]. cbn. now intros ->. Qed.

Lemma bind_raise {A B} (m : M A) (k : A -> M B) (w : World) (st : State) (e : Exc) :
  snd (m w st) = Raise e -> bind m k w st = (fst (m w st), Raise e).
Proof. unfold bind. destruct (m w st) as [st' r]. cbn. now intros ->. Qed.

Lemma print_then {B} (line : string) (k : M B) (w : World) (st : State) :
  bind (print line) (fun _ => k) w st = k w (mkState (sent st) (stdout st ++ [line])).
Proof. reflexivity. Qed.

Lemma main_script (w : World) (st : State) :
  main w st = bind (step_register (username w)) (fun _ => after_register (username w)) w st.
Proof. reflexivity. Qed.

(** *** The script from its end *)

Lemma after_vote_sends (poll_id : JSON) (w : World) (st : State) :
  sent (fst (after_vote poll_id w st)) = sent st ++ [request_of w (results_op poll_id)].
Proof.
  unfold after_vote. rewrite print_then.
  now rewrite step_results_sends.
Qed.

Lemma after_create_sends (poll_id option_id token : JSON) (w : World) (st : State) :
  (exists v, outcome w (sent st) (vote_op poll_id option_id token) = Ok v)
  \/ request_failed (outcome w (sent st) (vote_op poll_id option_id token)) ->
  sent (fst (after_create poll_id option_id token w st))
  = sent st ++ [request_of w (vote_op poll_id option_id token);
                request_of w (results_op poll_id)].
Proof.
  intros Hvote.
  unfold after_create. rewrite print_then.
  rewrite (bind_ok _ _ _ _ tt) by now apply step_vote_continues.
  rewrite after_vote_sends, step_vote_sends. cbn [sent].
  now rewrite <- app_assoc.
Qed.

Lemma after_login_stops (token : JSON) (w : World) (st : State) :
  (exists e, snd (step_create token w (mkState (sent st) (stdout st ++ [rule]))) = Raise e) ->
  sent (fst (after_login token w st)) = sent st ++ [request_of w (create_op token)]
  /\ exists e, snd (after_login token w st) = Raise e.
Proof.
  intros [e He].
  unfold after_login. rewrite print_then.
  rewrite (bind_raise _ _ _ _ e) by exact He.
  cbn [fst snd]. rewrite step_create_sends. split; [ reflexivity | now exists e ].
Qed.

Lemma after_register_stops (u : string) (w : World) (st : State) (e : Exc) :
  outcome w (sent st) (Login u password None) = Raise e ->
  sent (fst (after_register u w st)) = sent st ++ [request_of w (Login u password None)]
  /\ exists e', snd (after_register u w st) = Raise e'.
Proof.
  intros Hout.
  unfold after_register. rewrite print_then.
  destruct (step_login_fails u w (mkState (sent st) (stdout st ++ [rule])) e Hout)
    as [e' He'].
  rewrite (bind_raise _ _ _ _ e') by exact He'.
  cbn [fst snd]. rewrite step_login_sends. split; [ reflexivity | now exists e' ].
Qed.

Lemma after_register_enters (u : string) (w : World) (st : State)
    (entries : list (string * JSON)) (token : JSON) :
  outcome w (sent st) (Login u password None) = Ok (JDict entries) ->
  Py.lookup "access_token" entries = Some token ->
  Py.truthy token = true ->
  exists st', sent st' = sent st ++ [request_of w (Login u password None)]
              /\ after_register u w st = after_login token w st'.
Proof.
  intros Hout Hget Htruthy.
  unfold after_register. rewrite print_then.
  rewrite (bind_ok _ _ _ _ token) by now apply (step_login_binds _ _ _ entries).
  eexists. split; [ | reflexivity ].
  now rewrite step_login_sends.
Qed.

Lemma main_enters (w : World) (user : JSON) :
  outcome w [] (register_op w) = Ok user ->
  exists st', sent st' = [request_of w (register_op w)]
              /\ main w initial = after_register (username w) w st'.
Proof.
  intros Hout. rewrite main_script.
  rewrite (bind_ok _ _ _ _ tt).
  - eexists. split; [ | reflexivity ]. now rewrite step_register_sends.
  - rewrite step_register_result. cbn [sent initial].
    unfold register_op in Hout. now rewrite Hout.
Qed.

Lemma after_login_enters (token : JSON) (w : World) (st : State)
    (poll first : list (string * JSON)) (others : list JSON) (poll_id option_id : JSON) :
  outcome w (sent st) (create_op token) = Ok (JDict poll) ->
  Py.lookup "id" poll = Some poll_id ->
  Py.lookup "options" poll = Some (JList (JDict first :: others)) ->
  Py.lookup "id" first = Some option_id ->
  Py.truthy poll_id = true ->
  Py.truthy option_id = true ->
  exists st', sent st' = sent st ++ [request_of w (create_op token)]
              /\ after_login token w st = after_create poll_id option_id token w st'.
Proof.
  intros Hout Hid Hopts Hfirst Hpoll Hoption.
  unfold after_login. rewrite print_then.
  rewrite (bind_ok _ _ _ _ (poll_id, option_id))
    by now apply (step_create_binds _ _ _ poll first others).
  eexists. split; [ | reflexivity ].
  now rewrite step_create_sends.
Qed.

(** The script up to step 3, once steps 1 and 2 went through. *)
Lemma main_reaches_create (w : World) (token : JSON) :
  registered w -> logged_in w token ->
  exists st', sent st' = before_create w /\ main w initial = after_login token w st'.
Proof.
  intros [user Hreg] (entries & Hlog & Hget & Htruthy).
  destruct (main_enters w user Hreg) as (st1 & Hsent1 & Hmain).
  destruct (after_register_enters (username w) w st1 entries token) as (st2 & Hsent2 & Hrest);
    [ now rewrite Hsent1 | assumption | assumption | ].
  exists st2. split.
  - now rewrite Hsent2, Hsent1.
  - now rewrite Hmain, Hrest.
Qed.

(** When the transport raises only transport exceptions, every failure of
    an operation is one that [except RequestException] catches. *)
Lemma failures_are_request_exceptions (w : World) (history : list Request) (op : Operation) :
  (forall e, server w history (request_of w op) = inl e -> kind_of e = TransportError) ->
  (forall r e, server w history (request_of w op) = inr r ->
               json_loads w (text r) <> inl (DecoderRaised e)) ->
  failed (outcome w history op) -> request_failed (outcome w history op).
Proof.
  intros Htransport Hdecoder [e He]. unfold outcome in *.
  rewrite run_behaviour in *. unfold behaviour in *. cbn [sent stdout] in *.
  destruct (server w history (request_of w op)) as [e0|r].
  - specialize (Htransport e0 eq_refl). unfold kind_of in Htransport.
    destruct (issubclass (exc_class e0) HTTPError); [ discriminate | ].
    destruct (issubclass (exc_class e0) InvalidJSONError); [ discriminate | ].
    destruct (issubclass (exc_class e0) RequestException) eqn:Hreq; [ | discriminate ].
    exists e0. now split.
  - specialize (Hdecoder r).
    destruct (String.eqb (http_error_msg r) "").
    + destruct (json_loads w (text r)) as [[msg|e1]|v]; [ | | discriminate ].
      * eexists. split; reflexivity.
      * now destruct (Hdecoder e1).
    + eexists. split; reflexivity.
Qed.

(** C9, as the specification words it, fails for the vote: the driver
    catches only [RequestException] around [cast_vote], so a failure of
    another class ends the run before the results are asked for.  Here the
    answer to the vote is a number of 4301 digits, on which [response.json()]
    raises a [ValueError]. *)
Lemma vote_failure_may_end_the_run :
  ~ (forall (w : World) (token poll_id option_id : JSON),
        registered w ->
        logged_in w token ->
        created w token poll_id option_id ->
        failed (outcome w [request_of w (register_op w); request_of w (login_op w);
                           request_of w (create_op token)]
                  (vote_op poll_id option_id token)) ->
        In (request_of w (results_op poll_id)) (trace w)).
Proof.
  intros claim.
  specialize (claim Example.vote_overflows (JStr "abc") (JInt 3) (JInt 5)).
  assert (Hresults : In (request_of Example.vote_overflows (results_op (JInt 3)))
                       (trace Example.vote_overflows)).
  { apply claim.
    - exists (JDict [("id", JInt 7)]). reflexivity.
    - exists [("access_token", JStr "abc")]. repeat split.
    - exists [("id", JInt 3); ("options", JList [JDict [("id", JInt 5)]])],
             [("id", JInt 5)], [].
      repeat split.
    - exists Example.too_many_digits. reflexivity. }
  vm_compute in Hresults.
  repeat destruct Hresults as [Hresults | Hresults]; try discriminate Hresults.
  exact Hresults.
Qed.

(** The run of that world: four calls, the vote last, and the [ValueError]
    of the decoder as the end of the run. *)
Lemma vote_overflow_run :
  trace Example.vote_overflows
  = [request_of Example.vote_overflows (register_op Example.vote_overflows);
     request_of Example.vote_overflows (login_op Example.vote_overflows);
     request_of Example.vote_overflows (create_op (JStr "abc"));
     request_of Example.vote_overflows (vote_op (JInt 3) (JInt 5) (JStr "abc"))]
  /\ snd (main Example.vote_overflows initial) = Raise Example.too_many_digits.
Proof. split; vm_compute; reflexivity. Qed.

(** C9, amended.  A failure of step 1, 2 or 3 ends the run at that step: the
    calls made are those up to the failing one and the run ends by an
    exception.  A failure of the vote that [except RequestException] catches
    does not: the results are still asked for, as the fifth and last call. *)
Theorem driver_abort_policy (w : World) :
  let r1 := request_of w (register_op w) in
  let r2 := request_of w (login_op w) in
  (failed (outcome w [] (register_op w)) -> trace w = [r1] /\ aborted w)
  /\ (registered w -> failed (outcome w [r1] (login_op w)) ->
      trace w = [r1; r2] /\ aborted w)
  /\ (forall token,
        registered w -> logged_in w token ->
        failed (outcome w [r1; r2] (create_op token)) ->
        trace w = [r1; r2; request_of w (create_op token)] /\ aborted w)
  /\ (forall token poll_id option_id,
        registered w -> logged_in w token -> created w token poll_id option_id ->
        request_failed
          (outcome w [r1; r2; request_of w (create_op token)]
             (vote_op poll_id option_id token)) ->
        trace w = [r1; r2; request_of w (create_op token);
                   request_of w (vote_op poll_id option_id token);
                   request_of w (results_op poll_id)]).
Proof.
  cbv zeta. unfold trace, aborted.
  refine (conj _ (conj _ (conj _ _))).
  - intros [e He].
    pose proof (step_register_result (username w) w initial) as Hres.
    cbn [sent initial] in Hres. fold (register_op w) in Hres. rewrite He in Hres.
    rewrite main_script, (bind_raise _ _ _ _ _ Hres). cbn [fst snd].
    split; [ now rewrite step_register_sends | eexists; reflexivity ].
  - intros [user Hreg] [e He].
    destruct (main_enters w user Hreg) as (st1 & Hsent1 & Hmain).
    rewrite Hmain.
    destruct (after_register_stops (username w) w st1 e) as [Hsent Hraise];
      [ now rewrite Hsent1 | ].
    split; [ now rewrite Hsent, Hsent1 | exact Hraise ].
  - intros token Hreg Hlog [e He].
    destruct (main_reaches_create w token Hreg Hlog) as (st2 & Hsent2 & Hmain).
    rewrite Hmain.
    destruct (after_login_stops token w st2) as [Hsent Hraise].
    + apply (step_create_fails token w _ e). cbn [sent]. now rewrite Hsent2.
    + split; [ now rewrite Hsent, Hsent2 | exact Hraise ].
  - intros token poll_id option_id Hreg Hlog Hcreated Hvote.
    destruct (main_reaches_create w token Hreg Hlog) as (st2 & Hsent2 & Hmain).
    destruct Hcreated
      as (poll & first & others & Hout & Hid & Hopts & Hfirst & Hpoll & Hoption).
    destruct (after_login_enters token w st2 poll first others poll_id option_id)
      as (st3 & Hsent3 & Hrest); try assumption; [ now rewrite Hsent2 | ].
    rewrite Hmain, Hrest, after_create_sends.
    + now rewrite Hsent3, Hsent2.
    + right. now rewrite Hsent3, Hsent2.
Qed.

Lemma driver_abort_policy_witness :
  (trace (Example.world []) = [request_of (Example.world []) (register_op (Example.world []))]
   /\ aborted (Example.world []))
  /\ trace Example.vote_fails
     = [request_of Example.vote_fails (register_op Example.vote_fails);
        request_of Example.vote_fails (login_op Example.vote_fails);
        request_of Example.vote_fails (create_op (JStr "abc"));
        request_of Example.vote_fails (vote_op (JInt 3) (JInt 5) (JStr "abc"));
        request_of Example.vote_fails (results_op (JInt 3))].
Proof.
  split.
  - apply (proj1 (driver_abort_policy (Example.world []))).
    exists Example.refused. reflexivity.
  - apply (proj2 (proj2 (proj2 (driver_abort_policy Example.vote_fails)))
             (JStr "abc") (JInt 3) (JInt 5)).
    + exists (JDict [("id", JInt 7)]). reflexivity.
    + exists [("access_token", JStr "abc")]. repeat split.
    + exists [("id", JInt 3); ("options", JList [JDict [("id", JInt 5)]])],
             [("id", JInt 5)], [].
      repeat split.
    + eexists. split; reflexivity.
Defined.

(** C10.  After a successful [create_poll] whose poll has id 0, or whose
    first option has id 0, or whose list of options is empty, the run ends
    by an exception right there: the creation is its third and last call, so
    no vote is cast and no results are fetched.  (The ids are tested by
    [not poll_id or not option_id], which a present 0 fails; an empty list
    fails earlier, at [[0]].) *)
Theorem unusable_ids_abort (w : World) (token : JSON) (poll : list (string * JSON)) :
  registered w ->
  logged_in w token ->
  outcome w (before_create w) (create_op token) = Ok (JDict poll) ->
  unusable_ids poll ->
  trace w = before_create w ++ [request_of w (create_op token)] /\ aborted w.
Proof.
  intros Hreg Hlog Hout Hbad. unfold trace, aborted.
  destruct (main_reaches_create w token Hreg Hlog) as (st2 & Hsent2 & Hmain).
  rewrite Hmain.
  destruct (after_login_stops token w st2) as [Hsent Hraise].
  - apply (step_create_rejects token w _ poll); [ | exact Hbad ].
    cbn [sent]. now rewrite Hsent2.
  - split; [ now rewrite Hsent, Hsent2 | exact Hraise ].
Qed.

Lemma unusable_ids_abort_witness :
  trace Example.poll_zero
  = before_create Example.poll_zero ++ [request_of Example.poll_zero (create_op (JStr "abc"))]
  /\ aborted Example.poll_zero.
Proof.
  apply (unusable_ids_abort Example.poll_zero (JStr "abc")
           [("id", JInt 0); ("options", JList [JDict [("id", JInt 5)]])]).
  - exists (JDict [("id", JInt 7)]). reflexivity.
  - exists [("access_token", JStr "abc")]. repeat split.
  - reflexivity.
  - left. reflexivity.
Defined.

(** With both ids present and one of them 0, the run ends in [exit()]
    after the driver's own message. *)
Lemma zero_id_exits :
  main Example.poll_zero initial
  = (mkState (before_create Example.poll_zero
                ++ [request_of Example.poll_zero (create_op (JStr "abc"))])
       (stdout (fst (main Example.poll_zero initial))),
     Raise system_exit)
  /\ last (stdout (fst (main Example.poll_zero initial))) ""
     = "Failed to get poll ID or option ID from the created poll.".
Proof. split; vm_compute; reflexivity. Qed.

(** * Further properties of the client *)

(** ** The two remaining calls *)



(** ** What an operation does and never does *)


(** X4.  Only the statuses 400..599 are errors for the client: a response
    with any status below 400 or from 600 on whose body decodes to [X]
    makes the operation return [X], silently. *)
Theorem status_outside_400_599_returns (op : Operation) (w : World) (st : State)
    (r : Response) (X : JSON) :
  server w (sent st) (request_of w op) = inr r ->
  status_code r < 400 \/ 600 <= status_code r ->
  json_loads w (text r) = inr X ->
  run op w st = (mkState (sent st ++ [request_of w op]) (stdout st), Ok X).
Proof.
  intros Hsrv Hstatus Hbody.
  rewrite run_behaviour. unfold behaviour. rewrite Hsrv.
  rewrite http_error_msg_pass by assumption.
  cbn [String.eqb]. now rewrite Hbody.
Qed.

Lemma status_outside_400_599_returns_witness :
  run (GetPollResults (JInt 3) None) (Example.world [Example.reply 600 "{}"]) initial
  = (mkState [request_of (Example.world [Example.reply 600 "{}"])
                (GetPollResults (JInt 3) None)] [],
     Ok (JDict [])).
Proof.
  apply (status_outside_400_599_returns (GetPollResults (JInt 3) None)
           (Example.world [Example.reply 600 "{}"]) initial
           (mkResponse 600 "" "http://localhost:8000/" "{}") (JDict [])).
  - reflexivity.
  - right. cbn. lia.
  - reflexivity.
Defined.

(** X5.  An operation returns a value only when a response arrived whose
    status is not in 400..599 and whose body decodes to that value; it then
    has made its one call and printed nothing.  No value is ever made up
    after a failure. *)
Theorem returned_value_is_decoded_body (op : Operation) (w : World) (st st' : State)
    (X : JSON) :
  run op w st = (st', Ok X) ->
  exists r,
    server w (sent st) (request_of w op) = inr r
    /\ (status_code r < 400 \/ 600 <= status_code r)
    /\ json_loads w (text r) = inr X
    /\ st' = mkState (sent st ++ [request_of w op]) (stdout st).
Proof.
  rewrite run_behaviour. unfold behaviour.
  destruct (server w (sent st) (request_of w op)) as [e|r].
  - destruct (issubclass (exc_class e) HTTPError);
      [ destruct op; discriminate | ].
    destruct (issubclass (exc_class e) RequestException); discriminate.
  - destruct (String.eqb (http_error_msg r) "") eqn:Hmsg; [ | discriminate ].
    destruct (json_loads w (text r)) as [[msg|e]|v] eqn:Hbody;
      [ discriminate
      | destruct (issubclass (exc_class e) HTTPError); [ discriminate | ];
        destruct (issubclass (exc_class e) RequestException); discriminate
      | ].
    intros Heq. injection Heq as Hst Hv. subst v st'.
    exists r. split; [ reflexivity | ]. split; [ | split; [ exact Hbody | reflexivity ] ].
    destruct (Z_lt_dec (status_code r) 400) as [Hlow|Hlow]; [ now left | ].
    destruct (Z_le_dec 600 (status_code r)) as [Hhigh|Hhigh]; [ now right | ].
    rewrite http_error_msg_error in Hmsg by lia. discriminate.
Qed.

Lemma returned_value_is_decoded_body_witness :
  exists r,
    server (Example.world [Example.reply 200 "[]"]) (sent initial)
      (request_of (Example.world [Example.reply 200 "[]"]) (GetPolls None None None))
    = inr r
    /\ (status_code r < 400 \/ 600 <= status_code r)
    /\ json_loads (Example.world [Example.reply 200 "[]"]) (text r) = inr (JList [])
    /\ mkState [request_of (Example.world [Example.reply 200 "[]"])
                  (GetPolls None None None)] []
       = mkState (sent initial
                    ++ [request_of (Example.world [Example.reply 200 "[]"])
                          (GetPolls None None None)])
           (stdout initial).
Proof.
  apply (returned_value_is_decoded_body (GetPolls None None None)
           (Example.world [Example.reply 200 "[]"]) initial).
  reflexivity.
Defined.

(** X6.  On an error status for which the operation has no hint, exactly
    one line is printed, the error line, and the [HTTPError] of the response
    is raised; [get_polls] has no hint for any status. *)
Theorem unclassified_status_prints_error_line_only (op : Operation) (w : World)
    (st : State) (r : Response) :
  server w (sent st) (request_of w op) = inr r ->
  400 <= status_code r < 600 ->
  unclassified op (status_code r) ->
  run op w st
  = (mkState (sent st ++ [request_of w op])
       (stdout st ++ [("HTTP error occurred: " ++ http_error_msg r)%string]),
     Raise (mkExc HTTPError (http_error_msg r) (Some r))).
Proof.
  intros Hsrv Hstatus Hplain.
  rewrite run_behaviour. unfold behaviour. rewrite Hsrv.
  rewrite http_error_msg_error by assumption.
  assert (Hhint : hint_of op (status_code r) = []).
  { destruct op; cbn [hint_of unclassified] in *; try reflexivity.
    all: repeat match goal with
           | |- context [?a =? ?b] =>
               let E := fresh "E" in
               destruct (a =? b) eqn:E; [ apply Z.eqb_eq in E | ]
           end;
         try reflexivity; exfalso; tauto. }
  now rewrite Hhint.
Qed.

Lemma unclassified_status_prints_error_line_only_witness :
  run (RegisterUser "ann" "pw" None) (Example.world [Example.reply 500 "oops"]) initial
  = (mkState [request_of (Example.world [Example.reply 500 "oops"])
                (RegisterUser "ann" "pw" None)]
       (stdout initial
          ++ [("HTTP error occurred: "
                 ++ http_error_msg (mkResponse 500 "" "http://localhost:8000/" "oops"))%string]),
     Raise (mkExc HTTPError
              (http_error_msg (mkResponse 500 "" "http://localhost:8000/" "oops"))
              (Some (mkResponse 500 "" "http://localhost:8000/" "oops")))).
Proof.
  apply (unclassified_status_prints_error_line_only (RegisterUser "ann" "pw" None)
           (Example.world [Example.reply 500 "oops"]) initial
           (mkResponse 500 "" "http://localhost:8000/" "oops")).
  - reflexivity.
  - cbn. lia.
  - cbn. lia.
Defined.

Lemma http_error_is_request_exception (c : ExcClass) :
  issubclass c HTTPError = true -> issubclass c RequestException = true.
Proof. destruct c; cbn; intros H; try reflexivity; discriminate H. Qed.

(** X7.  The client catches nothing but [RequestException]: when the call
    raises an exception of another class, the operation raises that same
    exception and prints nothing. *)
Theorem foreign_exception_passes_through (op : Operation) (w : World) (st : State)
    (e : Exc) :
  server w (sent st) (request_of w op) = inl e ->
  issubclass (exc_class e) RequestException = false ->
  run op w st = (mkState (sent st ++ [request_of w op]) (stdout st), Raise e).
Proof.
  intros Hsrv Hforeign.
  rewrite run_behaviour. unfold behaviour. rewrite Hsrv.
  destruct (issubclass (exc_class e) HTTPError) eqn:Hhttp.
  - apply http_error_is_request_exception in Hhttp. congruence.
  - now rewrite Hforeign.
Qed.

Lemma foreign_exception_passes_through_witness :
  run (Login "ann" "pw" None)
    (mkWorld (fun _ _ => inl (mkExc TypeError "bad argument" None))
       Example.loads Example.repr_str 0)
    initial
  = (mkState [request_of
                (mkWorld (fun _ _ => inl (mkExc TypeError "bad argument" None))
                   Example.loads Example.repr_str 0)
                (Login "ann" "pw" None)] [],
     Raise (mkExc TypeError "bad argument" None)).
Proof.
  apply (foreign_exception_passes_through (Login "ann" "pw" None)
           (mkWorld (fun _ _ => inl (mkExc TypeError "bad argument" None))
              Example.loads Example.repr_str 0)
           initial (mkExc TypeError "bad argument" None)).
  - reflexivity.
  - reflexivity.
Defined.



(** ** Further properties of the driver *)

(** An operation that returns has printed nothing. *)
Lemma run_ok (op : Operation) (w : World) (st : State) (v : JSON) :
  outcome w (sent st) op = Ok v ->
  run op w st = (mkState (sent st ++ [request_of w op]) (stdout st), Ok v).
Proof.
  unfold outcome. rewrite !run_behaviour. unfold behaviour. cbn [sent stdout].
  destruct (server w (sent st) (request_of w op)) as [e|r].
  - destruct (issubclass (exc_class e) HTTPError);
      [ destruct op; discriminate | ].
    destruct (issubclass (exc_class e) RequestException); discriminate.
  - destruct (String.eqb (http_error_msg r) ""); [ | discriminate ].
    destruct (json_loads w (text r)) as [[msg|e]|v0].
    + discriminate.
    + destruct (issubclass (exc_class e) HTTPError); [ discriminate | ].
      destruct (issubclass (exc_class e) RequestException); discriminate.
    + cbn [snd]. now intros [= ->].
Qed.

Lemma step_login_without_token (u : string) (w : World) (st : State)
    (entries : list (string * JSON)) :
  outcome w (sent st) (Login u password None) = Ok (JDict entries) ->
  Py.truthy (match Py.lookup "access_token" entries with
             | Some x => x
             | None => JNull
             end) = false ->
  step_login u w st
  = (mkState (sent st ++ [request_of w (Login u password None)])
       (stdout st ++ [("--- Step 2: Logging in as '" ++ u ++ "' ---")%string;
                      "Failed to get access token from login response."]),
     Raise system_exit).
Proof.
  intros Hout Hfalsy.
  unfold step_login, bind, try_except, print at 1. cbn [sent stdout].
  change (login u password None) with (run (Login u password None)).
  rewrite (run_ok _ _ _ (JDict entries)) by exact Hout.
  cbn [get sent stdout]. unfold ret at 1. rewrite Hfalsy.
  cbn [negb]. unfold print, exit, raise. rewrite handle_request.
  cbn [sent stdout exc_class system_exit].
  change (issubclass SystemExit RequestException) with false.
  cbv iota. rewrite <- app_assoc. reflexivity.
Qed.

Lemma step_login_without_dict (u : string) (w : World) (st : State) (v : JSON) :
  outcome w (sent st) (Login u password None) = Ok v ->
  (forall entries, v <> JDict entries) ->
  snd (step_login u w st)
  = Raise (mkExc AttributeError
             ("'" ++ Py.type_name v ++ "' object has no attribute 'get'") None).
Proof.
  intros Hout Hshape.
  unfold step_login, bind, try_except, print at 1. cbn [sent stdout].
  change (login u password None) with (run (Login u password None)).
  rewrite (run_ok _ _ _ v) by exact Hout.
  destruct v; try (cbn [get]; unfold raise; rewrite handle_request; reflexivity).
  now destruct (Hshape entries).
Qed.

(** X9.  When the login succeeds but its response has no [access_token], or
    one that is falsy (null, an empty string, 0), the driver prints its
    message and exits: the login is the second and last call. *)
Theorem missing_token_stops_the_run (w : World) (entries : list (string * JSON)) :
  registered w ->
  outcome w [request_of w (register_op w)] (login_op w) = Ok (JDict entries) ->
  (Py.lookup "access_token" entries = None
   \/ exists token, Py.lookup "access_token" entries = Some token
                    /\ Py.truthy token = false) ->
  trace w = [request_of w (register_op w); request_of w (login_op w)]
  /\ snd (main w initial) = Raise system_exit
  /\ last (stdout (fst (main w initial))) ""
     = "Failed to get access token from login response.".
Proof.
  intros [user Hreg] Hlogin Htoken. unfold trace.
  destruct (main_enters w user Hreg) as (st1 & Hsent1 & Hmain).
  rewrite Hmain. unfold after_register. rewrite print_then.
  assert (Hstep := step_login_without_token (username w) w
                     (mkState (sent st1) (stdout st1 ++ [rule])) entries).
  cbn [sent stdout] in Hstep. rewrite <- Hsent1 in Hlogin.
  specialize (Hstep Hlogin).
  assert (Hfalsy : Py.truthy (match Py.lookup "access_token" entries with
                              | Some x => x
                              | None => JNull
                              end) = false).
  { destruct Htoken as [-> | (token & -> & Hfalsy)]; [ reflexivity | exact Hfalsy ]. }
  specialize (Hstep Hfalsy).
  rewrite (bind_raise _ _ _ _ system_exit); rewrite Hstep; [ | reflexivity ].
  cbn [fst snd sent stdout]. rewrite Hsent1. repeat split.
  match goal with
  | |- last (?l ++ [?a; ?b]) _ = _ => change (l ++ [a; b]) with (l ++ [a] ++ [b])
  end.
  rewrite app_assoc. apply last_last.
Qed.

Lemma missing_token_stops_the_run_witness :
  trace Example.no_token
  = [request_of Example.no_token (register_op Example.no_token);
     request_of Example.no_token (login_op Example.no_token)]
  /\ snd (main Example.no_token initial) = Raise system_exit
  /\ last (stdout (fst (main Example.no_token initial))) ""
     = "Failed to get access token from login response.".
Proof.
  apply (missing_token_stops_the_run Example.no_token []).
  - exists (JDict [("id", JInt 7)]). reflexivity.
  - reflexivity.
  - left. reflexivity.
Defined.

(** X10.  When the login succeeds with a body that is JSON but not an
    object, [login_response.get] raises an [AttributeError] that no clause
    of the driver catches: the run ends with it after the second call. *)
Theorem login_response_must_be_an_object (w : World) (v : JSON) :
  registered w ->
  outcome w [request_of w (register_op w)] (login_op w) = Ok v ->
  (forall entries, v <> JDict entries) ->
  trace w = [request_of w (register_op w); request_of w (login_op w)]
  /\ snd (main w initial)
     = Raise (mkExc AttributeError
                ("'" ++ Py.type_name v ++ "' object has no attribute 'get'") None).
Proof.
  intros [user Hreg] Hlogin Hshape. unfold trace.
  destruct (main_enters w user Hreg) as (st1 & Hsent1 & Hmain).
  rewrite Hmain. unfold after_register. rewrite print_then.
  assert (Hstep := step_login_without_dict (username w) w
                     (mkState (sent st1) (stdout st1 ++ [rule])) v).
  cbn [sent] in Hstep. rewrite <- Hsent1 in Hlogin.
  specialize (Hstep Hlogin Hshape).
  rewrite (bind_raise _ _ _ _ _ Hstep). cbn [fst snd].
  rewrite step_login_sends. cbn [sent]. now rewrite Hsent1.
Qed.

Lemma login_response_must_be_an_object_witness :
  trace Example.login_list
  = [request_of Example.login_list (register_op Example.login_list);
     request_of Example.login_list (login_op Example.login_list)]
  /\ snd (main Example.login_list initial)
     = Raise (mkExc AttributeError
                ("'" ++ Py.type_name (JList []) ++ "' object has no attribute 'get'") None).
Proof.
  apply (login_response_must_be_an_object Example.login_list (JList [])).
  - exists (JDict [("id", JInt 7)]). reflexivity.
  - reflexivity.
  - discriminate.
Defined.

Lemma step_results_continues (poll_id : JSON) (w : World) (st : State) :
  settled (outcome w (sent st) (results_op poll_id)) ->
  snd (step_results poll_id w st) = Ok tt.
Proof.
  intros Hout.
  unfold step_results, bind, try_except, str, print at 1. cbn [sent stdout].
  run_as (GetPollResults poll_id None).
  destruct Hout as [[v Hv] | (e & He & Hclass)]; unfold results_op in *.
  - rewrite Hv. reflexivity.
  - rewrite He, handle_request, Hclass. reflexivity.
Qed.

(** X11.  Once the poll is created, the run reaches its end normally, after
    the five calls of the script, whether the vote and the fetching of the
    results return or fail with a request exception: neither failure makes
    the driver exit. *)
Theorem run_completes_after_creation (w : World) (token poll_id option_id : JSON) :
  registered w ->
  logged_in w token ->
  created w token poll_id option_id ->
  settled (outcome w (firstn 3 (script w token poll_id option_id))
             (vote_op poll_id option_id token)) ->
  settled (outcome w (firstn 4 (script w token poll_id option_id))
             (results_op poll_id)) ->
  snd (main w initial) = Ok tt
  /\ trace w = script w token poll_id option_id.
Proof.
  intros Hreg Hlog Hcreated Hvote Hresults. unfold trace.
  cbn [firstn script] in Hvote, Hresults.
  destruct (main_reaches_create w token Hreg Hlog) as (st2 & Hsent2 & Hmain).
  destruct Hcreated
    as (poll & first & others & Hout & Hid & Hopts & Hfirst & Hpoll & Hoption).
  destruct (after_login_enters token w st2 poll first others poll_id option_id)
    as (st3 & Hsent3 & Hrest); try assumption; [ now rewrite Hsent2 | ].
  assert (Hhistory : sent st3 = firstn 3 (script w token poll_id option_id))
    by now rewrite Hsent3, Hsent2.
  cbn [firstn script] in Hhistory.
  rewrite Hmain, Hrest. split.
  - unfold after_create. rewrite print_then.
    rewrite (bind_ok _ _ _ _ tt)
      by (apply step_vote_continues; cbn [sent]; now rewrite Hhistory).
    unfold after_vote. rewrite print_then.
    apply step_results_continues. cbn [sent].
    rewrite step_vote_sends. cbn [sent]. now rewrite Hhistory.
  - rewrite after_create_sends by now rewrite Hhistory.
    now rewrite Hhistory.
Qed.

Lemma run_completes_after_creation_witness :
  snd (main Example.results_fail initial) = Ok tt
  /\ trace Example.results_fail
     = script Example.results_fail (JStr "abc") (JInt 3) (JInt 5).
Proof.
  apply (run_completes_after_creation Example.results_fail (JStr "abc") (JInt 3) (JInt 5)).
  - exists (JDict [("id", JInt 7)]). reflexivity.
  - exists [("access_token", JStr "abc")]. repeat split.
  - exists [("id", JInt 3); ("options", JList [JDict [("id", JInt 5)]])],
           [("id", JInt 5)], [].
    repeat split.
  - left. exists (JDict []). reflexivity.
  - right. eexists. split; reflexivity.
Defined.

(** *** The calls of any run *)

Lemma after_create_prefix (poll_id option_id token : JSON) (w : World) (st : State) :
  exists n,
    sent (fst (after_create poll_id option_id token w st))
    = sent st ++ firstn (S n) [request_of w (vote_op poll_id option_id token);
                               request_of w (results_op poll_id)].
Proof.
  unfold after_create. rewrite print_then.
  destruct (snd (step_vote poll_id option_id token w
                   (mkState (sent st) (stdout st ++ [rule])))) as [[]|e] eqn:Hvote.
  - exists 1%nat. rewrite (bind_ok _ _ _ _ tt Hvote).
    rewrite after_vote_sends, step_vote_sends. cbn [sent firstn].
    now rewrite <- app_assoc.
  - exists 0%nat. rewrite (bind_raise _ _ _ _ e Hvote).
    cbn [fst firstn]. now rewrite step_vote_sends.
Qed.

Lemma after_login_prefix (token : JSON) (w : World) (st : State) :
  exists poll_id option_id n,
    sent (fst (after_login token w st))
    = sent st ++ firstn (S n) [request_of w (create_op token);
                               request_of w (vote_op poll_id option_id token);
                               request_of w (results_op poll_id)].
Proof.
  unfold after_login. rewrite print_then.
  destruct (snd (step_create token w (mkState (sent st) (stdout st ++ [rule]))))
    as [[poll_id option_id]|e] eqn:Hcreate.
  - rewrite (bind_ok _ _ _ _ (poll_id, option_id) Hcreate).
    destruct (after_create_prefix poll_id option_id token w
                (fst (step_create token w (mkState (sent st) (stdout st ++ [rule])))))
      as [n Hn].
    exists poll_id, option_id, (S n). rewrite Hn, step_create_sends.
    cbn [sent]. rewrite <- app_assoc. reflexivity.
  - exists JNull, JNull, 0%nat. rewrite (bind_raise _ _ _ _ e Hcreate).
    cbn [fst firstn]. now rewrite step_create_sends.
Qed.

Lemma after_register_prefix (u : string) (w : World) (st : State) :
  exists token poll_id option_id n,
    sent (fst (after_register u w st))
    = sent st ++ firstn (S n) [request_of w (Login u password None);
                               request_of w (create_op token);
                               request_of w (vote_op poll_id option_id token);
                               request_of w (results_op poll_id)].
Proof.
  unfold after_register. rewrite print_then.
  destruct (snd (step_login u w (mkState (sent st) (stdout st ++ [rule]))))
    as [token|e] eqn:Hlogin.
  - rewrite (bind_ok _ _ _ _ token Hlogin).
    destruct (after_login_prefix token w
                (fst (step_login u w (mkState (sent st) (stdout st ++ [rule])))))
      as (poll_id & option_id & n & Hn).
    exists token, poll_id, option_id, (S n). rewrite Hn, step_login_sends.
    cbn [sent]. rewrite <- app_assoc. reflexivity.
  - exists JNull, JNull, JNull, 0%nat. rewrite (bind_raise _ _ _ _ e Hlogin).
    cbn [fst firstn]. now rewrite step_login_sends.
Qed.

(** X12.  In every world, the calls of a run are a non-empty beginning of
    the script: register, login, create, vote, results, in this order and
    each at most once.  The driver makes at most five calls, never lists the
    polls, and never makes a call out of order. *)
Theorem trace_begins_the_script (w : World) :
  exists token poll_id option_id n,
    trace w = firstn (S n) (script w token poll_id option_id).
Proof.
  unfold trace. rewrite main_script.
  destruct (snd (step_register (username w) w initial)) as [[]|e] eqn:Hregister.
  - rewrite (bind_ok _ _ _ _ tt Hregister).
    destruct (after_register_prefix (username w) w
                (fst (step_register (username w) w initial)))
      as (token & poll_id & option_id & n & Hn).
    exists token, poll_id, option_id, (S n).
    rewrite Hn, step_register_sends. reflexivity.
  - exists JNull, JNull, JNull, 0%nat.
    rewrite (bind_raise _ _ _ _ e Hregister). cbn [fst].
    now rewrite step_register_sends.
Qed.

(** *** What a step that went through tells *)

Lemma step_register_went_through (u : string) (w : World) (st : State) :
  snd (step_register u w st) = Ok tt ->
  exists user, outcome w (sent st) (RegisterUser u password None) = Ok user.
Proof.
  rewrite step_register_result.
  destruct (outcome w (sent st) (RegisterUser u password None)) as [user|e];
    [ now exists user | discriminate ].
Qed.

Lemma step_login_went_through (u : string) (w : World) (st : State) (token : JSON) :
  snd (step_login u w st) = Ok token ->
  exists entries,
    outcome w (sent st) (Login u password None) = Ok (JDict entries)
    /\ Py.lookup "access_token" entries = Some token
    /\ Py.truthy token = true.
Proof.
  unfold step_login, bind, try_except, print at 1. cbn [sent stdout].
  run_as (Login u password None).
  destruct (outcome w (sent st) (Login u password None)) as [v|e].
  - destruct v; cbn [get]; unfold raise; rewrite ?handle_request;
      try (cbn; discriminate).
    unfold ret at 1.
    destruct (Py.lookup "access_token" entries) as [x|] eqn:Hget;
      [ | cbn; discriminate ].
    destruct (Py.truthy x) eqn:Htruthy.
    + cbn. intros [= <-]. now exists entries.
    + cbn [negb]. unfold print, exit, raise. rewrite handle_request. cbn. discriminate.
  - rewrite handle_request.
    destruct (issubclass (exc_class e) RequestException); cbn; discriminate.
Qed.

Lemma step_create_went_through (token : JSON) (w : World) (st : State)
    (poll_id option_id : JSON) :
  snd (step_create token w st) = Ok (poll_id, option_id) ->
  exists poll first others,
    outcome w (sent st) (create_op token) = Ok (JDict poll)
    /\ Py.lookup "id" poll = Some poll_id
    /\ Py.lookup "options" poll = Some (JList (JDict first :: others))
    /\ Py.lookup "id" first = Some option_id
    /\ Py.truthy poll_id = true
    /\ Py.truthy option_id = true.
Proof.
  unfold step_create, bind, try_except, print at 1. cbn [sent stdout].
  run_as (CreatePoll question options token None).
  unfold create_op.
  destruct (outcome w (sent st) (CreatePoll question options token None)) as [v|e].
  - destruct v; cbn [get]; unfold print, raise; rewrite ?handle_request;
      try (cbn; discriminate).
    rename entries into poll.
    destruct (Py.lookup "id" poll) as [pid|] eqn:Hid;
      destruct (Py.lookup "options" poll) as [opts|] eqn:Hopts;
      run_step; cbn [snd]; try discriminate.
    all: intros [= <- <-].
    all: repeat match goal with
           | H : _ || _ = false |- _ => apply orb_false_elim in H; destruct H
           | H : negb _ = false |- _ => apply negb_false_iff in H
           end.
    all: try discriminate.
    all: subst.
    all: try (eexists _, _, _; repeat split; eassumption).
  - rewrite handle_request.
    destruct (issubclass (exc_class e) RequestException); cbn; discriminate.
Qed.

(** X13.  A vote is cast only after the three steps before it went
    through: whenever a run makes a fourth call, the registration returned,
    the login returned an object with a truthy [access_token], and the
    creation returned an object with a truthy [id] whose first option is an
    object with a truthy [id]; the fourth call is then the vote for this poll
    and option under this token. *)
Theorem vote_only_after_creation (w : World) :
  (4 <= List.length (trace w))%nat ->
  exists token poll_id option_id,
    registered w
    /\ logged_in w token
    /\ created w token poll_id option_id
    /\ firstn 4 (trace w) = firstn 4 (script w token poll_id option_id).
Proof.
  unfold trace. rewrite main_script.
  destruct (snd (step_register (username w) w initial)) as [[]|e] eqn:Hregister;
    [ rewrite (bind_ok _ _ _ _ tt Hregister)
    | rewrite (bind_raise _ _ _ _ e Hregister); cbn [fst];
      rewrite step_register_sends; cbn; lia ].
  pose proof (step_register_sends (username w) w initial) as Hsent1.
  cbn [sent initial app] in Hsent1.
  apply step_register_went_through in Hregister. cbn [sent initial] in Hregister.
  set (st1 := fst (step_register (username w) w initial)) in *.
  unfold after_register. rewrite print_then.
  set (st1' := mkState (sent st1) (stdout st1 ++ [rule])).
  destruct (snd (step_login (username w) w st1')) as [token|e] eqn:Hlogin;
    [ rewrite (bind_ok _ _ _ _ token Hlogin)
    | rewrite (bind_raise _ _ _ _ e Hlogin); cbn [fst];
      rewrite step_login_sends; cbn [sent st1']; rewrite Hsent1; cbn; lia ].
  pose proof (step_login_sends (username w) w st1') as Hsent2.
  cbn [sent st1'] in Hsent2. rewrite Hsent1 in Hsent2. cbn [app] in Hsent2.
  apply step_login_went_through in Hlogin.
  cbn [sent st1'] in Hlogin. rewrite Hsent1 in Hlogin.
  set (st2 := fst (step_login (username w) w st1')) in *.
  unfold after_login. rewrite print_then.
  set (st2' := mkState (sent st2) (stdout st2 ++ [rule])).
  destruct (snd (step_create token w st2')) as [[poll_id option_id]|e] eqn:Hcreate;
    [ rewrite (bind_ok _ _ _ _ (poll_id, option_id) Hcreate)
    | rewrite (bind_raise _ _ _ _ e Hcreate); cbn [fst];
      rewrite step_create_sends; cbn [sent st2']; rewrite Hsent2; cbn; lia ].
  pose proof (step_create_sends token w st2') as Hsent3.
  cbn [sent st2'] in Hsent3. rewrite Hsent2 in Hsent3. cbn [app] in Hsent3.
  apply step_create_went_through in Hcreate.
  cbn [sent st2'] in Hcreate. rewrite Hsent2 in Hcreate.
  set (st3 := fst (step_create token w st2')) in *.
  intros _.
  exists token, poll_id, option_id.
  split; [ exact Hregister | ].
  split; [ exact Hlogin | ].
  split; [ exact Hcreate | ].
  destruct (after_create_prefix poll_id option_id token w st3) as [n Hn].
  fold create_op in Hsent3.
  rewrite Hn, Hsent3. destruct n; reflexivity.
Qed.

Lemma vote_only_after_creation_witness :
  exists token poll_id option_id,
    registered Example.vote_fails
    /\ logged_in Example.vote_fails token
    /\ created Example.vote_fails token poll_id option_id
    /\ firstn 4 (trace Example.vote_fails)
       = firstn 4 (script Example.vote_fails token poll_id option_id).
Proof.
  apply (vote_only_after_creation Example.vote_fails).
  vm_compute. lia.
Defined.

Lemma step_create_without_options (token : JSON) (w : World) (st : State)
    (poll : list (string * JSON)) :
  outcome w (sent st) (create_op token) = Ok (JDict poll) ->
  Py.lookup "options" poll = None ->
  step_create token w st
  = (mkState (sent st ++ [request_of w (create_op token)])
       (stdout st ++ ["--- Step 3: Creating a new poll ---";
                      "Poll created successfully:";
                      Json.dumps_indent 0 (JDict poll);
                      "Failed to get poll ID or option ID from the created poll."]),
     Raise system_exit).
Proof.
  intros Hout Hopts.
  unfold step_create, bind, try_except, print at 1. cbn [sent stdout].
  change (create_poll question options token None) with (run (create_op token)).
  rewrite (run_ok _ _ _ (JDict poll)) by exact Hout.
  unfold print, ret. cbn [get sent stdout]. rewrite Hopts.
  unfold ret. cbn [item0 get Py.lookup]. unfold ret. cbn [get Py.lookup].
  unfold ret. cbn [Py.truthy negb].
  rewrite orb_true_r. unfold exit, raise. rewrite handle_request.
  cbn [sent stdout exc_class system_exit].
  change (issubclass SystemExit RequestException) with false. cbv iota.
  rewrite <- !app_assoc. reflexivity.
Qed.

(** X14.  When the created poll comes back without an [options] key, the
    default [[{}]] of the driver stands in for it: no option id is found,
    and the driver prints its message and exits after the third call,
    instead of failing on a missing key. *)
Theorem missing_options_exit_cleanly (w : World) (token : JSON)
    (poll : list (string * JSON)) :
  registered w ->
  logged_in w token ->
  outcome w (before_create w) (create_op token) = Ok (JDict poll) ->
  Py.lookup "options" poll = None ->
  trace w = before_create w ++ [request_of w (create_op token)]
  /\ snd (main w initial) = Raise system_exit
  /\ last (stdout (fst (main w initial))) ""
     = "Failed to get poll ID or option ID from the created poll.".
Proof.
  intros Hreg Hlog Hout Hopts. unfold trace.
  destruct (main_reaches_create w token Hreg Hlog) as (st2 & Hsent2 & Hmain).
  rewrite Hmain. unfold after_login. rewrite print_then.
  assert (Hstep := step_create_without_options token w
                     (mkState (sent st2) (stdout st2 ++ [rule])) poll).
  cbn [sent stdout] in Hstep. rewrite <- Hsent2 in Hout.
  specialize (Hstep Hout Hopts).
  rewrite (bind_raise _ _ _ _ system_exit); rewrite Hstep; [ | reflexivity ].
  cbn [fst snd sent stdout]. rewrite Hsent2. repeat split.
  match goal with
  | |- last (?l ++ [?a; ?b; ?c; ?d]) _ = _ =>
      change (l ++ [a; b; c; d]) with (l ++ [a; b; c] ++ [d])
  end.
  rewrite app_assoc. apply last_last.
Qed.

Lemma missing_options_exit_cleanly_witness :
  trace Example.no_options
  = before_create Example.no_options
      ++ [request_of Example.no_options (create_op (JStr "abc"))]
  /\ snd (main Example.no_options initial) = Raise system_exit
  /\ last (stdout (fst (main Example.no_options initial))) ""
     = "Failed to get poll ID or option ID from the created poll.".
Proof.
  apply (missing_options_exit_cleanly Example.no_options (JStr "abc") [("id", JInt 7)]).
  - exists (JDict [("id", JInt 7)]). reflexivity.
  - exists [("access_token", JStr "abc")]. repeat split.
  - reflexivity.
  - reflexivity.
Defined.

(** ** An exception of the decoder *)

(** X15.  [response.json()] is called inside the [try], and the clauses
    catch nothing but [RequestException]: when the decoder raises an
    exception of another class on the body of a response that is no error (a
    [ValueError] on an integer beyond the digit limit, a [RecursionError]),
    the operation raises that same exception, after its one call and without
    printing. *)
Theorem decoder_exception_passes_through (op : Operation) (w : World) (st : State)
    (r : Response) (e : Exc) :
  server w (sent st) (request_of w op) = inr r ->
  status_code r < 400 \/ 600 <= status_code r ->
  json_loads w (text r) = inl (DecoderRaised e) ->
  issubclass (exc_class e) RequestException = false ->
  run op w st = (mkState (sent st ++ [request_of w op]) (stdout st), Raise e).
Proof.
  intros Hsrv Hstatus Hbody Hforeign.
  rewrite run_behaviour. unfold behaviour. rewrite Hsrv.
  rewrite http_error_msg_pass by assumption.
  cbn [String.eqb]. rewrite Hbody.
  destruct (issubclass (exc_class e) HTTPError) eqn:Hhttp.
  - apply http_error_is_request_exception in Hhttp. congruence.
  - now rewrite Hforeign.
Qed.

Lemma decoder_exception_passes_through_witness :
  run (GetPolls None None None)
    (Example.world [Example.reply 200 Example.big_number]) initial
  = (mkState (sent initial
                ++ [request_of (Example.world [Example.reply 200 Example.big_number])
                      (GetPolls None None None)])
       (stdout initial),
     Raise Example.too_many_digits).
Proof.
  apply (decoder_exception_passes_through (GetPolls None None None)
           (Example.world [Example.reply 200 Example.big_number]) initial
           (mkResponse 200 "" "http://localhost:8000/" Example.big_number)
           Example.too_many_digits).
  - reflexivity.
  - left. cbn. lia.
  - vm_compute. reflexivity.
  - reflexivity.
Defined.
